(** * FPL team analyzer: a shallow embedding of [netlify/functions/analyze-team.js]

    The serverless function joins three upstream payloads (player and team
    catalogue, manager entry, fixture list) with the manager's picks and
    derives a squad table, transfer suggestions, captain picks and insights.

    Modelling conventions.
    - Integer JSON fields (ids, gameweeks, difficulty ratings, prices in
      tenths) are [Z].
    - Every other JavaScript number is a [num]: an exact rational or [NaN].
      The arithmetic is exact: the rounding of binary64 is not modelled, and
      neither are the infinities (no expression of the program divides a
      non-zero number by zero). The rating function, whose thresholds the
      rounding can cross, is embedded a second time over binary64 in
      module [B64].
    - [Number.prototype.toFixed(1)] yields a [dec1], the decimal string with
      one fractional digit, kept as sign and number of tenths.
    - [Map] is an insertion-ordered association list; keys are JavaScript
      values compared with SameValueZero, so a string never equals a number.
    - [Array.prototype.sort] is the stable sort of ECMAScript 2019; a
      comparator result that is [NaN] counts as [+0].
    - The handler runs in a small monad that records every upstream request
      and carries thrown exceptions; console output is left out. *)

From Stdlib Require Import ZArith QArith Qround Qabs Bool List String Ascii Lia Lqa.
From Stdlib Require Import DecimalString.
From Stdlib Require Import SpecFloat.
From Stdlib Require Import Sorted Permutation.
Import ListNotations.

Local Open Scope string_scope.
Local Open Scope Z_scope.

(** ** JavaScript numbers *)

Module Num.

Inductive num : Type :=
| NaN
| Fin (q : Q).

Definition ofZ (z : Z) : num := Fin (inject_Z z).
Definition ofNat (n : nat) : num := Fin (inject_Z (Z.of_nat n)).

Definition lift2 (f : Q -> Q -> Q) (a b : num) : num :=
  match a, b with
  | Fin x, Fin y => Fin (f x y)
  | _, _ => NaN
  end.

Definition add : num -> num -> num := lift2 Qplus.
Definition sub : num -> num -> num := lift2 Qminus.
Definition mul : num -> num -> num := lift2 Qmult.

(** [a / b]. The program only divides by the constant 10 and by an array
    length; a zero length comes with a zero sum, and [0 / 0] is [NaN]. *)
Definition div (a b : num) : num :=
  match a, b with
  | Fin x, Fin y => if Qeq_bool y 0 then NaN else Fin (x / y)
  | _, _ => NaN
  end.

Definition cmp2 (f : Q -> Q -> bool) (a b : num) : bool :=
  match a, b with
  | Fin x, Fin y => f x y
  | _, _ => false
  end.

Definition Qlt_bool (x y : Q) : bool := negb (Qle_bool y x).

Definition leb : num -> num -> bool := cmp2 Qle_bool.
Definition ltb : num -> num -> bool := cmp2 Qlt_bool.
Definition geb (a b : num) : bool := leb b a.
Definition gtb (a b : num) : bool := ltb b a.

(** ToBoolean on a number: [NaN] and zero are falsy. *)
Definition truthy (a : num) : bool :=
  match a with
  | NaN => false
  | Fin x => negb (Qeq_bool x 0)
  end.

(** [a || b] on numbers. *)
Definition or_else (a b : num) : num := if truthy a then a else b.

Definition is_nan (a : num) : bool :=
  match a with NaN => true | Fin _ => false end.

(** [Math.round]: the nearest integer, a half going up. *)
Definition round (a : num) : num :=
  match a with
  | NaN => NaN
  | Fin x => Fin (inject_Z (Qfloor (x + (1 # 2))))
  end.

(** [Math.min] of two arguments: [NaN] as soon as one of them is. *)
Definition min (a b : num) : num :=
  match a, b with
  | Fin x, Fin y => if Qle_bool x y then Fin x else Fin y
  | _, _ => NaN
  end.

(** Equality of values: rationals are compared as fractions. *)
Definition eqv (a b : num) : Prop :=
  match a, b with
  | NaN, NaN => True
  | Fin x, Fin y => x == y
  | _, _ => False
  end.

End Num.
Import Num.

Declare Scope num_scope.
Delimit Scope num_scope with num.
Bind Scope num_scope with num.
Infix "+" := Num.add : num_scope.
Infix "-" := Num.sub : num_scope.
Infix "*" := Num.mul : num_scope.
Infix "/" := Num.div : num_scope.
Infix "<=?" := Num.leb : num_scope.
Infix "<?" := Num.ltb : num_scope.
Infix ">=?" := Num.geb : num_scope.
Infix ">?" := Num.gtb : num_scope.
Infix "||" := Num.or_else : num_scope.

(** A decimal literal with one fractional digit, given in tenths:
    [tenths 35] is the literal [3.5]. *)
Definition tenths (t : Z) : num := Fin (t # 10).

(** ** Strings produced by [toFixed(1)] *)

Inductive dec1 : Type :=
| DecNaN
| Dec (neg : bool) (t : N).

(** [x.toFixed(1)]: the sign is taken first, then the integer [n] with
    [n / 10] nearest to the magnitude, the larger one on a tie. *)
Definition toFixed1 (a : num) : dec1 :=
  match a with
  | NaN => DecNaN
  | Fin x =>
      Dec (Qlt_bool x 0) (Z.to_N (Qfloor (Qabs x * 10 + (1 # 2))))
  end.

(** [parseFloat] on such a string. *)
Definition parseFloat1 (d : dec1) : num :=
  match d with
  | DecNaN => NaN
  | Dec neg t => Fin ((if neg then - Z.of_N t else Z.of_N t) # 10)
  end.

(** Template-literal rendering of a non-negative integer. *)
Definition N_to_string (n : N) : string := NilZero.string_of_uint (N.to_uint n).
Definition nat_to_string (n : nat) : string := N_to_string (N.of_nat n).

Definition dec1_to_string (d : dec1) : string :=
  match d with
  | DecNaN => "NaN"
  | Dec neg t =>
      (if neg then "-" else "")
        ++ N_to_string (t / 10) ++ "." ++ N_to_string (t mod 10)
  end.

(** ** Maps

    [Map] keeps its entries in insertion order; [set] on a key already
    present replaces the value in place. *)

Inductive key : Type :=
| KStr (s : string)
| KNum (z : Z).

(** SameValueZero on the keys the program uses. *)
Definition key_eqb (a b : key) : bool :=
  match a, b with
  | KStr s, KStr t => String.eqb s t
  | KNum x, KNum y => Z.eqb x y
  | _, _ => false
  end.

Module JsMap.

Definition t (V : Type) : Type := list (key * V).

Definition empty {V} : t V := [].

Fixpoint set {V} (k : key) (v : V) (m : t V) : t V :=
  match m with
  | [] => [(k, v)]
  | (k', v') :: m' =>
      if key_eqb k' k then (k', v) :: m' else (k', v') :: set k v m'
  end.

Fixpoint get {V} (k : key) (m : t V) : option V :=
  match m with
  | [] => None
  | (k', v') :: m' => if key_eqb k' k then Some v' else get k m'
  end.

Definition values {V} (m : t V) : list V := map snd m.

End JsMap.

(** ** Arrays *)

(** [a.slice(0, n)] *)
Definition slice0 {A} (n : nat) (a : list A) : list A := firstn n a.

Section Sort.
Context {A : Type}.
(** The comparator, [compareFn(a, b)]. *)
Variable compareFn : A -> A -> num.

(** [a] goes after [b] only when the comparator is positive. *)
Definition after (a b : A) : bool := (compareFn a b >? ofZ 0)%num.

Fixpoint insert (x : A) (l : list A) : list A :=
  match l with
  | [] => [x]
  | y :: l' => if after x y then y :: insert x l' else x :: y :: l'
  end.

(** [a.sort(compareFn)]: stable, so an element stays ahead of the later
    ones it ties with. *)
Definition sort (l : list A) : list A := fold_right insert [] l.
End Sort.

(** [a.join(', ')] *)
Fixpoint join (sep : string) (l : list string) : string :=
  match l with
  | [] => ""
  | [s] => s
  | s :: l' => s ++ sep ++ join sep l'
  end.

(** [a.find(p)] is [List.find]; [a.filter(p)] is [List.filter]. *)

(** [a.map((x, idx) => f x idx)] *)
Fixpoint mapi_from {A B} (i : nat) (f : A -> nat -> B) (l : list A) : list B :=
  match l with
  | [] => []
  | x :: l' => f x i :: mapi_from (S i) f l'
  end.
Definition mapi {A B} (f : A -> nat -> B) (l : list A) : list B := mapi_from 0 f l.

(** ** Strings *)

Definition lower_ascii (c : ascii) : ascii :=
  let n := nat_of_ascii c in
  if (65 <=? n)%nat && (n <=? 90)%nat then ascii_of_nat (n + 32) else c.

(** [s.toLowerCase()] on ASCII text. *)
Fixpoint toLowerCase (s : string) : string :=
  match s with
  | EmptyString => EmptyString
  | String c s' => String (lower_ascii c) (toLowerCase s')
  end.

(** [s || d] on strings: the empty string is falsy. *)
Definition str_or (s d : string) : string :=
  if String.eqb s "" then d else s.

(** [o?.field || d] when the field is a string. *)
Definition opt_str_or (o : option string) (d : string) : string :=
  match o with
  | Some s => str_or s d
  | None => d
  end.

(** A possibly undefined string inside a template literal. *)
Definition template_opt (o : option string) : string :=
  match o with
  | Some s => s
  | None => "undefined"
  end.

(** ** Upstream data *)

Module Team.
Record t := { id : Z; short_name : string }.
End Team.

Module Fixture.
(** [event] is [null] for a fixture that is not scheduled yet. *)
Record t := {
  event : option Z;
  team_h : Z;
  team_a : Z;
  team_h_difficulty : Z;
  team_a_difficulty : Z }.
End Fixture.

Module Event.
Record t := { id : option Z; is_current : bool }.
End Event.

Module Element.
(** [form] stands for the number [parseFloat] reads from the upstream
    decimal string, [NaN] when there is none. *)
Record t := {
  id : Z;
  web_name : string;
  team : Z;
  team_code : Z;
  element_type : Z;
  now_cost : Z;
  form : num;
  selected_by_percent : string;
  total_points : Z;
  points_per_game : string }.
End Element.

Module Bootstrap.
Record t := {
  events : list Event.t;
  elements : list Element.t;
  teams : list Team.t }.
End Bootstrap.

Module Entry.
Record t := {
  player_first_name : string;
  player_last_name : string;
  last_deadline_value : Z;
  last_deadline_bank : Z;
  summary_overall_rank : Z;
  summary_event_rank : Z;
  summary_overall_points : Z }.
End Entry.

Module Pick.
Record t := { element : Z; is_captain : bool; is_vice_captain : bool }.
End Pick.

(** ** Derived data *)

Module Player.
(** A value of [playersMap]: [{...player, team: <short name>}]. *)
Record t := { base : Element.t; team : string }.
Definition id (p : t) := Element.id (base p).
Definition web_name (p : t) := Element.web_name (base p).
Definition team_code (p : t) := Element.team_code (base p).
Definition element_type (p : t) := Element.element_type (base p).
Definition now_cost (p : t) := Element.now_cost (base p).
Definition form (p : t) := Element.form (base p).
Definition selected_by_percent (p : t) := Element.selected_by_percent (base p).
Definition total_points (p : t) := Element.total_points (base p).
Definition points_per_game (p : t) := Element.points_per_game (base p).
End Player.

Module Proj.
(** One entry of a team's projected fixture window. *)
Record t := {
  gameweek : option Z;
  opponent : string;
  difficulty : Z;
  isHome : bool }.
End Proj.

Module Squad.
Record t := {
  id : Z;
  name : string;
  team : string;
  position : string;
  price : num;
  form : dec1;
  selectedBy : string;
  fixtures : string;
  avgDifficulty : dec1;
  rating : string;
  ratingClass : string;
  totalPoints : Z;
  pointsPerGame : string;
  isCaptain : bool;
  isViceCaptain : bool }.
End Squad.

Module Candidate.
(** [{...p, avgDifficulty: avgDiff, fixtures}] *)
Record t := { player : Player.t; avgDifficulty : num; fixtures : list Proj.t }.
End Candidate.

Module Transfer.
Record side := {
  name : string;
  team : string;
  form : dec1;
  price : num;
  fixtures : string }.
Record t := {
  playerOut : side;
  playerIn : side;
  cost : dec1;
  projectedPoints : dec1;
  reasoning_out : string;
  reasoning_in : string }.
End Transfer.

Module Captain.
(** [{...player, nextFixture, captainScore, confidence}] *)
Record cand := {
  player : Squad.t;
  nextFixture : string;
  captainScore : num;
  confidence : num }.
Record t := { name : string; conf : num; reasoning : string }.
End Captain.

Module Insight.
Record t := { icon : string; title : string; message : string }.
End Insight.

(** ** Helper functions of the source *)

(** [null] converts to 0 in comparisons and subtractions. *)
Definition toNumber (e : option Z) : Z :=
  match e with Some z => z | None => 0 end.

Definition teamFixturesMap : Type := JsMap.t (list Proj.t).

Definition inWindow (currentGW : Z) (f : Fixture.t) : bool :=
  (toNumber (Fixture.event f) >=? currentGW)
  && (toNumber (Fixture.event f) <=? currentGW + 8).

Definition byEvent (a b : Fixture.t) : num :=
  ofZ (toNumber (Fixture.event a) - toNumber (Fixture.event b)).

Definition participates (team : Team.t) (f : Fixture.t) : bool :=
  (Fixture.team_h f =? Team.id team) || (Fixture.team_a f =? Team.id team).

Definition project (teamsMap : JsMap.t Team.t) (team : Team.t) (f : Fixture.t) : Proj.t :=
  let isHome := Fixture.team_h f =? Team.id team in
  let opponent :=
    if isHome
    then option_map Team.short_name (JsMap.get (KNum (Fixture.team_a f)) teamsMap)
    else option_map Team.short_name (JsMap.get (KNum (Fixture.team_h f)) teamsMap) in
  let difficulty :=
    if isHome then Fixture.team_h_difficulty f else Fixture.team_a_difficulty f in
  {| Proj.gameweek := Fixture.event f;
     Proj.opponent := (if isHome then "" else "@") ++ template_opt opponent;
     Proj.difficulty := difficulty;
     Proj.isHome := isHome |}.

Definition getNextFixtures (allFixtures : list Fixture.t) (currentGW : Z)
    (teamsMap : JsMap.t Team.t) : teamFixturesMap :=
  let upcomingFixtures := sort byEvent (filter (inWindow currentGW) allFixtures) in
  fold_left
    (fun teamFixtures entry =>
       let team := snd entry in
       let fixtures :=
         slice0 8 (map (project teamsMap team)
                       (filter (participates team) upcomingFixtures)) in
       JsMap.set (KStr (Team.short_name team)) fixtures teamFixtures)
    teamsMap JsMap.empty.

Definition getPosition (elementType : Z) : string :=
  match elementType with
  | 1 => "GK"
  | 2 => "DEF"
  | 3 => "MID"
  | 4 => "FWD"
  | _ => "UNK"
  end.

Definition totalScore (form avgDifficulty : num) : num :=
  let formScore := (form * ofZ 2)%num in
  let fixtureBonus := ((ofZ 5 - avgDifficulty) * ofZ 2)%num in
  (formScore + fixtureBonus)%num.

Definition getRating (form avgDifficulty : num) : string :=
  let totalScore := totalScore form avgDifficulty in
  if (totalScore >=? ofZ 14)%num then "Excellent"
  else if (totalScore >=? ofZ 10)%num then "Good"
  else if (totalScore >=? ofZ 6)%num then "Average"
  else "Poor".

Definition getRatingClass (form avgDifficulty : num) : string :=
  let rating := getRating form avgDifficulty in
  toLowerCase rating.

(** [fixtures.reduce((sum, f) => sum + f.difficulty, 0) / fixtures.length || 3] *)
Definition averageDifficulty (fixtures : list Proj.t) : num :=
  (fold_left (fun sum f => sum + ofZ (Proj.difficulty f)) fixtures (ofZ 0)
     / ofNat (List.length fixtures) || ofZ 3)%num.

(** [teamFixtures.get(k)?.slice(0, n) || []] *)
Definition window (n : nat) (k : key) (teamFixtures : teamFixturesMap) : list Proj.t :=
  match JsMap.get k teamFixtures with
  | Some fixtures => slice0 n fixtures
  | None => []
  end.

Definition opponents (fixtures : list Proj.t) : string :=
  join ", " (map Proj.opponent fixtures).

(** ** Exceptions *)

Inductive outcome (A : Type) : Type :=
| Ok (a : A)
| Throw (message : string).
Arguments Ok {A} a.
Arguments Throw {A} message.

(** [a.map(f)] when [f] may throw: the first exception ends the loop. *)
Fixpoint mapThrow {A B} (f : A -> outcome B) (l : list A) : outcome (list B) :=
  match l with
  | [] => Ok []
  | x :: l' =>
      match f x with
      | Throw m => Throw m
      | Ok y =>
          match mapThrow f l' with
          | Throw m => Throw m
          | Ok ys => Ok (y :: ys)
          end
      end
  end.

(** ** Squad analyzer (the callback of [picksData.picks.map]) *)

Definition analyzePick (playersMap : JsMap.t Player.t)
    (teamFixtures : teamFixturesMap) (pick : Pick.t) : outcome Squad.t :=
  match JsMap.get (KNum (Pick.element pick)) playersMap with
  | None => Throw "Cannot read properties of undefined (reading 'team_code')"
  | Some player =>
      let fixtures := window 5 (KNum (Player.team_code player)) teamFixtures in
      let avgDifficulty := averageDifficulty fixtures in
      Ok {| Squad.id := Player.id player;
            Squad.name := Player.web_name player;
            Squad.team := Player.team player;
            Squad.position := getPosition (Player.element_type player);
            Squad.price := (ofZ (Player.now_cost player) / ofZ 10)%num;
            Squad.form := toFixed1 (Player.form player);
            Squad.selectedBy := Player.selected_by_percent player;
            Squad.fixtures := opponents fixtures;
            Squad.avgDifficulty := toFixed1 avgDifficulty;
            Squad.rating := getRating (Player.form player) avgDifficulty;
            Squad.ratingClass := getRatingClass (Player.form player) avgDifficulty;
            Squad.totalPoints := Player.total_points player;
            Squad.pointsPerGame := Player.points_per_game player;
            Squad.isCaptain := Pick.is_captain pick;
            Squad.isViceCaptain := Pick.is_vice_captain pick |}
  end.

(** ** Transfer suggester *)

Definition isWeak (p : Squad.t) : bool :=
  (parseFloat1 (Squad.form p) <? ofZ 3)%num
  || (parseFloat1 (Squad.avgDifficulty p) >? tenths 35)%num.

Definition byForm (a b : Squad.t) : num :=
  (parseFloat1 (Squad.form a) - parseFloat1 (Squad.form b))%num.

Definition transferOutCandidates (squad : list Squad.t) : list Squad.t :=
  slice0 3 (sort byForm (filter isWeak squad)).

Definition inSquad (squad : list Squad.t) (p : Player.t) : bool :=
  match find (fun s => Squad.id s =? Player.id p) squad with
  | Some _ => true
  | None => false
  end.

Definition isAlternative (squad : list Squad.t) (bank : num)
    (playerOut : Squad.t) (p : Player.t) : bool :=
  String.eqb (getPosition (Player.element_type p)) (Squad.position playerOut)
  && (ofZ (Player.now_cost p) / ofZ 10 <=? Squad.price playerOut + bank)%num
  && (Player.form p >? parseFloat1 (Squad.form playerOut))%num
  && negb (Player.id p =? Squad.id playerOut)
  && negb (inSquad squad p).

Definition toCandidate (teamFixtures : teamFixturesMap) (p : Player.t) : Candidate.t :=
  let fixtures := window 5 (KStr (Player.team p)) teamFixtures in
  let avgDiff := averageDifficulty fixtures in
  {| Candidate.player := p;
     Candidate.avgDifficulty := avgDiff;
     Candidate.fixtures := fixtures |}.

Definition candidateScore (c : Candidate.t) : num :=
  (Player.form (Candidate.player c) * ofZ 2 - Candidate.avgDifficulty c)%num.

Definition byScoreDesc (a b : Candidate.t) : num :=
  let scoreA := candidateScore a in
  let scoreB := candidateScore b in
  (scoreB - scoreA)%num.

Definition alternatives (squad : list Squad.t) (playersMap : JsMap.t Player.t)
    (teamFixtures : teamFixturesMap) (bank : num) (playerOut : Squad.t)
    : list Candidate.t :=
  slice0 1
    (sort byScoreDesc
       (map (toCandidate teamFixtures)
            (filter (isAlternative squad bank playerOut) (JsMap.values playersMap)))).

(** The object pushed for a pair. *)
Definition mkTransfer (playerOut : Squad.t) (playerIn : Candidate.t) : Transfer.t :=
  let p := Candidate.player playerIn in
  let cost := (ofZ (Player.now_cost p) / ofZ 10 - Squad.price playerOut)%num in
  let projectedPoints :=
    ((Player.form p - parseFloat1 (Squad.form playerOut)) * ofZ 5)%num in
  {| Transfer.playerOut :=
       {| Transfer.name := Squad.name playerOut;
          Transfer.team := Squad.team playerOut;
          Transfer.form := Squad.form playerOut;
          Transfer.price := Squad.price playerOut;
          Transfer.fixtures := Squad.fixtures playerOut |};
     Transfer.playerIn :=
       {| Transfer.name := Player.web_name p;
          Transfer.team := Player.team p;
          Transfer.form := toFixed1 (Player.form p);
          Transfer.price := (ofZ (Player.now_cost p) / ofZ 10)%num;
          Transfer.fixtures := opponents (Candidate.fixtures playerIn) |};
     Transfer.cost := toFixed1 cost;
     Transfer.projectedPoints := toFixed1 projectedPoints;
     Transfer.reasoning_out :=
       "Form " ++ dec1_to_string (Squad.form playerOut)
         ++ ", Difficult fixtures (" ++ Squad.fixtures playerOut
         ++ "), Rating: " ++ Squad.rating playerOut;
     Transfer.reasoning_in :=
       "Strong form " ++ dec1_to_string (toFixed1 (Player.form p))
         ++ ", Favorable fixtures (" ++ opponents (Candidate.fixtures playerIn)
         ++ "), " ++ Player.selected_by_percent p ++ "% owned" |}.

(** One round of [transferOutCandidates.forEach]. *)
Definition pushTransfer (squad : list Squad.t) (playersMap : JsMap.t Player.t)
    (teamFixtures : teamFixturesMap) (bank : num)
    (transfers : list Transfer.t) (playerOut : Squad.t) : list Transfer.t :=
  match alternatives squad playersMap teamFixtures bank playerOut with
  | playerIn :: _ => (transfers ++ [mkTransfer playerOut playerIn])%list
  | [] => transfers
  end.

Definition findTransferOpportunities (squad : list Squad.t)
    (playersMap : JsMap.t Player.t) (teamFixtures : teamFixturesMap) (bank : num)
    : list Transfer.t :=
  let transfers :=
    fold_left (pushTransfer squad playersMap teamFixtures bank)
              (transferOutCandidates squad) [] in
  slice0 2 transfers.

(** ** Captaincy ranker *)

Definition toCaptainCandidate (teamFixtures : teamFixturesMap) (player : Squad.t)
    : Captain.cand :=
  let fixtures := window 1 (KStr (Squad.team player)) teamFixtures in
  let nextFixture := nth_error fixtures 0 in
  let formScore := (parseFloat1 (Squad.form player) * ofZ 10)%num in
  let fixtureScore :=
    match nextFixture with
    | Some f => ((ofZ 6 - ofZ (Proj.difficulty f)) * ofZ 5)%num
    | None => ofZ 0
    end in
  let homeBonus :=
    match nextFixture with
    | Some f => if Proj.isHome f then ofZ 5 else ofZ 0
    | None => ofZ 0
    end in
  let totalScore := (formScore + fixtureScore + homeBonus)%num in
  {| Captain.player := player;
     Captain.nextFixture := opt_str_or (option_map Proj.opponent nextFixture) "N/A";
     Captain.captainScore := totalScore;
     Captain.confidence := Num.min (ofZ 95) (Num.round (totalScore * tenths 12)) |}.

Definition byCaptainScoreDesc (a b : Captain.cand) : num :=
  (Captain.captainScore b - Captain.captainScore a)%num.

Definition captainCandidates (squad : list Squad.t) (teamFixtures : teamFixturesMap)
    : list Captain.cand :=
  slice0 3 (sort byCaptainScoreDesc (map (toCaptainCandidate teamFixtures) squad)).

Definition renderCaptain (p : Captain.cand) (idx : nat) : Captain.t :=
  let s := Captain.player p in
  {| Captain.name := Squad.name s ++ " (" ++ Squad.team s ++ ")";
     Captain.conf := Captain.confidence p;
     Captain.reasoning :=
       match idx with
       | O =>
           "Top form (" ++ dec1_to_string (Squad.form s)
             ++ "), favorable fixture vs " ++ Captain.nextFixture p
             ++ ", " ++ Squad.selectedBy s ++ "% owned"
       | S _ =>
           "Good form (" ++ dec1_to_string (Squad.form s)
             ++ "), decent fixture vs " ++ Captain.nextFixture p
       end |}.

Definition getCaptainRecommendations (squad : list Squad.t)
    (teamFixtures : teamFixturesMap) : list Captain.t :=
  mapi renderCaptain (captainCandidates squad teamFixtures).

(** ** Insight generator *)

Definition count {A} (p : A -> bool) (l : list A) : nat := List.length (filter p l).

Definition strongFixtureRun (easyFixtures : nat) : Insight.t :=
  {| Insight.icon := "âœ…";
     Insight.title := "Strong Fixture Run";
     Insight.message :=
       nat_to_string easyFixtures
         ++ " of your players have favorable fixtures in the next 5 gameweeks. Good time to hold your team." |}.

Definition difficultFixtures (hardFixtures : nat) : Insight.t :=
  {| Insight.icon := "âš ï¸";
     Insight.title := "Difficult Fixtures Ahead";
     Insight.message :=
       nat_to_string hardFixtures
         ++ " players face tough fixtures. Consider using your free transfer strategically or save it for a double gameweek." |}.

Definition formConcerns (poorForm : nat) : Insight.t :=
  {| Insight.icon := "ðŸ“‰";
     Insight.title := "Form Concerns";
     Insight.message :=
       nat_to_string poorForm
         ++ " players are struggling for form. Monitor team news and consider transfers if this continues." |}.

Definition strongTeamValue (teamValue : num) : Insight.t :=
  {| Insight.icon := "ðŸ’°";
     Insight.title := "Strong Team Value";
     Insight.message :=
       "Your team is valued at Â£" ++ dec1_to_string (toFixed1 teamValue)
         ++ "m. You've built good value through smart transfers and price rises." |}.

Definition transferOpportunities (n : nat) : Insight.t :=
  {| Insight.icon := "ðŸ”„";
     Insight.title := "Transfer Opportunities";
     Insight.message :=
       "We've identified " ++ nat_to_string n
         ++ " potential upgrade(s) that could improve your team over the next 5 gameweeks." |}.

Definition teamLookingSolid : Insight.t :=
  {| Insight.icon := "âœ¨";
     Insight.title := "Team Looking Solid";
     Insight.message :=
       "No urgent transfers needed. Consider banking your free transfer or monitoring for upcoming double gameweeks." |}.

(** The insights pushed before the transfer recommendation. *)
Definition thresholdInsights (squad : list Squad.t) (teamData : Entry.t)
    : list Insight.t :=
  let easyFixtures :=
    count (fun p => (parseFloat1 (Squad.avgDifficulty p) <? tenths 25)%num) squad in
  let hardFixtures :=
    count (fun p => (parseFloat1 (Squad.avgDifficulty p) >? tenths 35)%num) squad in
  let insights1 :=
    if (5 <=? easyFixtures)%nat then [strongFixtureRun easyFixtures]
    else if (5 <=? hardFixtures)%nat then [difficultFixtures hardFixtures]
    else [] in
  let poorForm :=
    count (fun p => (parseFloat1 (Squad.form p) <? ofZ 2)%num) squad in
  let insights2 :=
    if (3 <=? poorForm)%nat then (insights1 ++ [formConcerns poorForm])%list
    else insights1 in
  let teamValue := (ofZ (Entry.last_deadline_value teamData) / ofZ 10)%num in
  if (teamValue >=? ofZ 103)%num then (insights2 ++ [strongTeamValue teamValue])%list
  else insights2.

Definition generateInsights (squad : list Squad.t) (transfers : list Transfer.t)
    (teamData : Entry.t) : list Insight.t :=
  let insights := thresholdInsights squad teamData in
  match transfers with
  | _ :: _ => (insights ++ [transferOpportunities (List.length transfers)])%list
  | [] => (insights ++ [teamLookingSolid])%list
  end.

(** ** Upstream requests *)

Module FPL_API.
(** The four endpoints; [team] and [picks] carry what their URL is built from. *)
Inductive url : Type :=
| bootstrap
| team (teamId : string)
| picks (teamId : string) (gw : Z)
| fixtures.
End FPL_API.

(** What the upstream answers: a parsed payload, or a rejection (network
    error, body that is not JSON, payload without the expected members). *)
Record Upstream := {
  serve_bootstrap : outcome Bootstrap.t;
  serve_team : string -> outcome Entry.t;
  serve_fixtures : outcome (list Fixture.t);
  serve_picks : string -> Z -> outcome (list Pick.t) }.

(** A computation reads the upstream, appends to the list of requests sent
    so far, and returns or throws. *)
Definition M (A : Type) : Type :=
  Upstream -> list FPL_API.url -> outcome A * list FPL_API.url.

Definition ret {A} (a : A) : M A := fun _ sent => (Ok a, sent).

Definition bind {A B} (c : M A) (k : A -> M B) : M B :=
  fun up sent =>
    match c up sent with
    | (Ok a, sent') => k a up sent'
    | (Throw m, sent') => (Throw m, sent')
    end.

Definition lift {A} (o : outcome A) : M A := fun _ sent => (o, sent).

Notation "x <- c ;; k" := (bind c (fun x => k))
  (at level 61, c at next level, right associativity).

(** [fetch(url).then(r => r.json())] *)
Definition fetch {A} (u : FPL_API.url) (answer : Upstream -> outcome A) : M A :=
  fun up sent => (answer up, (sent ++ [u])%list).

(** [await Promise.all([a, b, c])]: the three requests are all sent before
    anything is awaited. When more than one of them is rejected, which
    rejection is reported depends on which comes first in time; here it is
    the first in array order, and nothing below depends on that choice. *)
Definition all3 {A B C} (a : M A) (b : M B) (c : M C) : M (A * B * C) :=
  fun up sent =>
    let '(ra, sent1) := a up sent in
    let '(rb, sent2) := b up sent1 in
    let '(rc, sent3) := c up sent2 in
    (match ra, rb, rc with
     | Ok x, Ok y, Ok z => Ok (x, y, z)
     | Throw m, _, _ => Throw m
     | _, Throw m, _ => Throw m
     | _, _, Throw m => Throw m
     end, sent3).

(** ** The handler *)

Module Request.
(** [queryStringParameters] is [null] when the URL has no query. *)
Record t := {
  httpMethod : string;
  queryStringParameters : option (list (string * string)) }.
End Request.

Module Analysis.
Record t := {
  teamName : string;
  teamValue : dec1;
  bank : dec1;
  overallRank : Z;
  gameweekRank : Z;
  totalPoints : Z;
  currentGW : Z;
  squad : list Squad.t;
  transfers : list Transfer.t;
  captains : list Captain.t;
  insights : list Insight.t }.
End Analysis.

(** The response body before [JSON.stringify]: the empty string, an object
    of string members, or the analysis object. *)
Inductive body : Type :=
| Empty
| Object (members : list (string * string))
| AnalysisObject (a : Analysis.t).

Module Response.
Record t := {
  statusCode : Z;
  headers : list (string * string);
  body_ : body }.
End Response.

Definition headers : list (string * string) :=
  [ ("Access-Control-Allow-Origin", "*");
    ("Access-Control-Allow-Headers", "Content-Type");
    ("Access-Control-Allow-Methods", "GET, OPTIONS");
    ("Content-Type", "application/json") ].

Fixpoint member (name : string) (o : list (string * string)) : option string :=
  match o with
  | [] => None
  | (k, v) :: o' => if String.eqb k name then Some v else member name o'
  end.

(** [event.queryStringParameters?.teamId] *)
Definition teamIdOf (event : Request.t) : option string :=
  match Request.queryStringParameters event with
  | Some params => member "teamId" params
  | None => None
  end.

(** [bootstrapData.events.find(e => e.is_current)?.id || 1] *)
Definition currentGameweek (bootstrapData : Bootstrap.t) : Z :=
  match find Event.is_current (Bootstrap.events bootstrapData) with
  | Some e =>
      match Event.id e with
      | Some i => if i =? 0 then 1 else i
      | None => 1
      end
  | None => 1
  end.

Definition buildPlayersMap (bootstrapData : Bootstrap.t) : JsMap.t Player.t :=
  fold_left
    (fun playersMap player =>
       JsMap.set (KNum (Element.id player))
         {| Player.base := player;
            Player.team :=
              opt_str_or
                (option_map Team.short_name
                   (find (fun t => Team.id t =? Element.team player)
                         (Bootstrap.teams bootstrapData)))
                "UNK" |}
         playersMap)
    (Bootstrap.elements bootstrapData) JsMap.empty.

Definition buildTeamsMap (bootstrapData : Bootstrap.t) : JsMap.t Team.t :=
  fold_left
    (fun teamsMap team => JsMap.set (KNum (Team.id team)) team teamsMap)
    (Bootstrap.teams bootstrapData) JsMap.empty.

(** Everything after the last fetch, up to the object that is stringified. *)
Definition analyze (bootstrapData : Bootstrap.t) (teamData : Entry.t)
    (fixturesData : list Fixture.t) (picks : list Pick.t) (currentGW : Z)
    : outcome Analysis.t :=
  let playersMap := buildPlayersMap bootstrapData in
  let teamsMap := buildTeamsMap bootstrapData in
  let teamFixtures := getNextFixtures fixturesData currentGW teamsMap in
  match mapThrow (analyzePick playersMap teamFixtures) picks with
  | Throw m => Throw m
  | Ok squad =>
      let bank := (ofZ (Entry.last_deadline_bank teamData) / ofZ 10)%num in
      let transfers := findTransferOpportunities squad playersMap teamFixtures bank in
      let captains := getCaptainRecommendations squad teamFixtures in
      let insights := generateInsights squad transfers teamData in
      Ok {| Analysis.teamName :=
              Entry.player_first_name teamData ++ " " ++ Entry.player_last_name teamData;
            Analysis.teamValue :=
              toFixed1 (ofZ (Entry.last_deadline_value teamData) / ofZ 10)%num;
            Analysis.bank := toFixed1 bank;
            Analysis.overallRank := Entry.summary_overall_rank teamData;
            Analysis.gameweekRank := Entry.summary_event_rank teamData;
            Analysis.totalPoints := Entry.summary_overall_points teamData;
            Analysis.currentGW := currentGW;
            Analysis.squad := squad;
            Analysis.transfers := transfers;
            Analysis.captains := captains;
            Analysis.insights := insights |}
  end.

(** The body of the [try] block once the identifier is known. *)
Definition tryBlock (teamId : string) : M Response.t :=
  fetched <- all3 (fetch FPL_API.bootstrap serve_bootstrap)
                  (fetch (FPL_API.team teamId) (fun up => serve_team up teamId))
                  (fetch FPL_API.fixtures serve_fixtures) ;;
  let '(bootstrapData, teamData, fixturesData) := fetched in
  let currentGW := currentGameweek bootstrapData in
  picksData <- fetch (FPL_API.picks teamId currentGW)
                     (fun up => serve_picks up teamId currentGW) ;;
  a <- lift (analyze bootstrapData teamData fixturesData picksData currentGW) ;;
  ret {| Response.statusCode := 200;
         Response.headers := headers;
         Response.body_ := AnalysisObject a |}.

(** [try { ... } catch (error) { ... }] *)
Definition catch500 (c : M Response.t) : M Response.t :=
  fun up sent =>
    match c up sent with
    | (Ok r, sent') => (Ok r, sent')
    | (Throw m, sent') =>
        (Ok {| Response.statusCode := 500;
               Response.headers := headers;
               Response.body_ :=
                 Object [("error", "Failed to analyze team"); ("message", m)] |},
         sent')
    end.

Definition handler (event : Request.t) : M Response.t :=
  if String.eqb (Request.httpMethod event) "OPTIONS"
  then ret {| Response.statusCode := 200;
              Response.headers := headers;
              Response.body_ := Empty |}
  else
    catch500
      match teamIdOf event with
      | None | Some "" =>
          ret {| Response.statusCode := 400;
                 Response.headers := headers;
                 Response.body_ := Object [("error", "Team ID is required")] |}
      | Some teamId => tryBlock teamId
      end.

(** ** Specification vocabulary *)

(** One round of a [forEach] that stores [valOf e] under [keyOf e]. *)
Definition setEntry {E V} (keyOf : E -> key) (valOf : E -> V)
    (m : JsMap.t V) (e : E) : JsMap.t V :=
  JsMap.set (keyOf e) (valOf e) m.

(** Order by a rational rank. *)
Definition rank_le {A} (rank : A -> Q) (x y : A) : Prop := (rank x <= rank y)%Q.

Definition eventRank (f : Fixture.t) : Q := inject_Z (toNumber (Fixture.event f)).

(** The fixtures of a team inside the window, in upstream order. *)
Definition qualifying (currentGW : Z) (team : Team.t) (allFixtures : list Fixture.t)
    : list Fixture.t :=
  filter (fun f => participates team f && inWindow currentGW f) allFixtures.

Definition ascendingGameweek (a b : Fixture.t) : Prop :=
  toNumber (Fixture.event a) <= toNumber (Fixture.event b).

(** What [getNextFixtures] stores under a short name. *)
Definition projection (allFixtures : list Fixture.t) (currentGW : Z)
    (teamsMap : JsMap.t Team.t) (team : Team.t) : list Proj.t :=
  slice0 8 (map (project teamsMap team)
                (sort byEvent (qualifying currentGW team allFixtures))).

Definition isTransferInsight (i : Insight.t) : bool :=
  String.eqb (Insight.title i) "Transfer Opportunities"
  || String.eqb (Insight.title i) "Team Looking Solid".

(** Sample catalogue used by the examples below. *)
Module Sample.
Definition ARS : Team.t := {| Team.id := 1; Team.short_name := "ARS" |}.
Definition CHE : Team.t := {| Team.id := 2; Team.short_name := "CHE" |}.
Definition LIV : Team.t := {| Team.id := 3; Team.short_name := "LIV" |}.
Definition teams : list Team.t := [ARS; CHE; LIV].

Definition teamsMap : JsMap.t Team.t :=
  [(KNum 1, ARS); (KNum 2, CHE); (KNum 3, LIV)].

(** Arsenal at home to Chelsea, rated 2 for the hosts and 4 for the guests. *)
Definition arsChe (gw : Z) : Fixture.t :=
  {| Fixture.event := Some gw;
     Fixture.team_h := 1; Fixture.team_a := 2;
     Fixture.team_h_difficulty := 2; Fixture.team_a_difficulty := 4 |}.

(** One such fixture in each of the gameweeks 1 to 9, latest first. *)
Definition nineFixtures : list Fixture.t := map arsChe [9; 8; 7; 6; 5; 4; 3; 2; 1].

Definition twoFixtures : list Fixture.t := [arsChe 2; arsChe 1].

(** A lookup in which a second club carries Arsenal's short name. *)
Definition namesake : Team.t := {| Team.id := 4; Team.short_name := "ARS" |}.
Definition clashingTeamsMap : JsMap.t Team.t := [(KNum 1, ARS); (KNum 4, namesake)].
End Sample.

Module SampleUpstream.
(** An upstream that rejects every request. *)
Definition offline : Upstream :=
  {| serve_bootstrap := Throw "network";
     serve_team := fun _ => Throw "network";
     serve_fixtures := Throw "network";
     serve_picks := fun _ _ => Throw "network" |}.

Definition preflight : Request.t :=
  {| Request.httpMethod := "OPTIONS"; Request.queryStringParameters := None |}.

Definition getWithoutQuery : Request.t :=
  {| Request.httpMethod := "GET"; Request.queryStringParameters := None |}.

Definition getEmptyId : Request.t :=
  {| Request.httpMethod := "GET";
     Request.queryStringParameters := Some [("teamId", "")] |}.

Definition get42 : Request.t :=
  {| Request.httpMethod := "GET";
     Request.queryStringParameters := Some [("teamId", "42")] |}.
End SampleUpstream.

(** The rank by which the captaincy sort orders candidates that have a score. *)
Definition scoreRank (c : Captain.cand) : Q :=
  match Captain.captainScore c with
  | Fin q => (- q)%Q
  | NaN => 0%Q
  end.

Definition hasScore (c : Captain.cand) : Prop :=
  is_nan (Captain.captainScore c) = false.

(** [a] may stand before [b]: the score of [b] is not above that of [a]. *)
Definition descendingScore (a b : Captain.cand) : Prop :=
  (Captain.captainScore b <=? Captain.captainScore a)%num = true.

Definition confidenceFormula (c : Captain.cand) : Prop :=
  Captain.confidence c
  = Num.min (ofZ 95) (Num.round (Captain.captainScore c * tenths 12)).

(** A catalogue of three clubs and a manager with one unit in the bank. *)
Module SampleWorld.
Definition element (id : Z) (name : string) (team code type cost : Z) (form : num)
    : Element.t :=
  {| Element.id := id; Element.web_name := name;
     Element.team := team; Element.team_code := code;
     Element.element_type := type; Element.now_cost := cost;
     Element.form := form;
     Element.selected_by_percent := "10.0";
     Element.total_points := 50; Element.points_per_game := "4.0" |}.

Definition saka := element 10 "Saka" 1 3 3 90 (tenths 10).
Definition palmer := element 11 "Palmer" 2 8 3 85 (tenths 60).
Definition salah := element 12 "Salah" 3 14 3 130 (tenths 80).
Definition raya := element 13 "Raya" 1 3 1 55 (tenths 40).
Definition odegaard := element 14 "Odegaard" 1 3 3 85 (tenths 20).
Definition rice := element 15 "Rice" 1 3 3 80 (tenths 20).
Definition havertz := element 16 "Havertz" 3 14 4 75 (tenths (-10)).
(** A player whose form string holds no number. *)
Definition trialist := element 17 "Trialist" 3 14 2 40 NaN.

(** No event is marked current. *)
Definition bootstrapData : Bootstrap.t :=
  {| Bootstrap.events :=
       [ {| Event.id := Some 1; Event.is_current := false |};
         {| Event.id := Some 2; Event.is_current := false |} ];
     Bootstrap.elements :=
     [saka; palmer; salah; raya; odegaard; rice; havertz; trialist];
     Bootstrap.teams := Sample.teams |}.

Definition teamData : Entry.t :=
  {| Entry.player_first_name := "Ada"; Entry.player_last_name := "Lovelace";
     Entry.last_deadline_value := 1000; Entry.last_deadline_bank := 10;
     Entry.summary_overall_rank := 1234; Entry.summary_event_rank := 99;
     Entry.summary_overall_points := 500 |}.

Definition pick (id : Z) : Pick.t :=
  {| Pick.element := id; Pick.is_captain := false; Pick.is_vice_captain := false |}.

Definition picks : list Pick.t := [pick 10; pick 13].

Definition up : Upstream :=
  {| serve_bootstrap := Ok bootstrapData;
     serve_team := fun _ => Ok teamData;
     serve_fixtures := Ok Sample.twoFixtures;
     serve_picks := fun _ _ => Ok picks |}.

Definition playersMap : JsMap.t Player.t := buildPlayersMap bootstrapData.

Definition teamFixtures : teamFixturesMap :=
  getNextFixtures Sample.twoFixtures 1 (buildTeamsMap bootstrapData).

Definition sakaEntry : Squad.t :=
  {| Squad.id := 10; Squad.name := "Saka"; Squad.team := "ARS";
     Squad.position := "MID"; Squad.price := (ofZ 90 / ofZ 10)%num;
     Squad.form := Dec false 10; Squad.selectedBy := "10.0";
     Squad.fixtures := ""; Squad.avgDifficulty := Dec false 30;
     Squad.rating := "Average"; Squad.ratingClass := "average";
     Squad.totalPoints := 50; Squad.pointsPerGame := "4.0";
     Squad.isCaptain := false; Squad.isViceCaptain := false |}.

Definition palmerPlayer : Player.t :=
  {| Player.base := palmer; Player.team := "CHE" |}.

(** Saka out, Palmer in. *)
Definition sakaForPalmer : Transfer.t :=
  mkTransfer sakaEntry (toCandidate teamFixtures palmerPlayer).

(** The squad the analyzer builds from a list of picked ids. *)
Definition squadOf (ids : list Z) : list Squad.t :=
  match mapThrow (analyzePick playersMap teamFixtures) (map pick ids) with
  | Ok squad => squad
  | Throw _ => []
  end.
End SampleWorld.

(** ** The client ([App], the React component)

    The component state is threaded explicitly; the server is a function
    from the requested URL to what [fetch] resolves or rejects with. Only
    ASCII white space is known to [trim]. *)

Module App.

Record state (D : Type) : Type := {
  teamId : string;
  loading : bool;
  error : option string;
  analysis : option D }.
Arguments teamId {D} s.
Arguments loading {D} s.
Arguments error {D} s.
Arguments analysis {D} s.

(** What [await fetch(url)] gives: a rejection, or a response with its [ok]
    flag, its status text and the outcome of [response.json()]. *)
Inductive reply (D : Type) : Type :=
| Rejected (message : string)
| Response (ok : bool) (statusText : string) (json : outcome D).
Arguments Rejected {D} message.
Arguments Response {D} ok statusText json.

(** The white space [String.prototype.trim] removes, as far as it is ASCII:
    tab, line feed, vertical tab, form feed, carriage return and space. The
    white space beyond ASCII (U+00A0, U+FEFF, the Unicode space separators
    and line terminators) is not modelled: a property that needs a
    character not to be white space is stated for ASCII text only. *)
Definition isSpace (c : ascii) : bool :=
  let n := nat_of_ascii c in
  ((9 <=? n)%nat && (n <=? 13)%nat) || (n =? 32)%nat.

Fixpoint trimStart (s : string) : string :=
  match s with
  | EmptyString => EmptyString
  | String c s' => if isSpace c then trimStart s' else s
  end.

Fixpoint trimEnd (s : string) : string :=
  match s with
  | EmptyString => EmptyString
  | String c s' =>
      match trimEnd s' with
      | EmptyString => if isSpace c then EmptyString else String c EmptyString
      | r => String c r
      end
  end.

(** [s.trim()] *)
Definition trim (s : string) : string := trimEnd (trimStart s).

(** [!teamId || teamId.trim() === ''] *)
Definition isBlank (teamId : string) : bool :=
  String.eqb teamId "" || String.eqb (trim teamId) "".

Definition endpoint : string := "/.netlify/functions/analyze-team?teamId=".

Definition failureText : string :=
  "Failed to analyze team. Please check your Team ID and try again.".

(** [analyzeTeam]: the state after the handler has run, and the URLs fetched. *)
Definition analyzeTeam {D} (server : string -> reply D) (st : state D)
    : state D * list string :=
  if isBlank (teamId st)
  then ({| teamId := teamId st; loading := loading st;
           error := Some "Please enter your FPL Team ID";
           analysis := analysis st |}, [])
  else
    let url := endpoint ++ teamId st in
    let '(error', analysis') :=
      match server url with
      | Rejected m => (Some (str_or m failureText), None)
      | Response ok statusText json =>
          if negb ok
          then (Some (str_or ("Error: " ++ statusText) failureText), None)
          else
            match json with
            | Ok data => (None, Some data)
            | Throw m => (Some (str_or m failureText), None)
            end
      end in
    ({| teamId := teamId st; loading := false;
        error := error'; analysis := analysis' |}, [url]).

(** [handleKeyPress]: only the Enter key starts the analysis. *)
Definition handleKeyPress {D} (key : string) (server : string -> reply D)
    (st : state D) : state D * list string :=
  if String.eqb key "Enter" then analyzeTeam server st else (st, []).

End App.

(** ** Vocabulary of the further properties *)

(** Sum of the difficulty ratings of a window. *)
Definition sumDifficulty (fixtures : list Proj.t) : Z :=
  fold_right (fun f s => Proj.difficulty f + s) 0 fixtures.

(** The four rating labels from worst to best. *)
Definition labelRank (label : string) : nat :=
  if String.eqb label "Excellent" then 3
  else if String.eqb label "Good" then 2
  else if String.eqb label "Average" then 1
  else 0.

Definition hasTitle (title : string) (insights : list Insight.t) : bool :=
  existsb (fun i => String.eqb (Insight.title i) title) insights.

Definition easyCount (squad : list Squad.t) : nat :=
  count (fun p => (parseFloat1 (Squad.avgDifficulty p) <? tenths 25)%num) squad.

Definition hardCount (squad : list Squad.t) : nat :=
  count (fun p => (parseFloat1 (Squad.avgDifficulty p) >? tenths 35)%num) squad.

Definition poorFormCount (squad : list Squad.t) : nat :=
  count (fun p => (parseFloat1 (Squad.form p) <? ofZ 2)%num) squad.

(** The catalogue entry as [playersMap] stores it. *)
Definition playerOf (bootstrapData : Bootstrap.t) (player : Element.t) : Player.t :=
  {| Player.base := player;
     Player.team :=
       opt_str_or
         (option_map Team.short_name
            (find (fun t => Team.id t =? Element.team player)
                  (Bootstrap.teams bootstrapData)))
         "UNK" |}.

Definition ascendingForm (a b : Squad.t) : Prop :=
  (parseFloat1 (Squad.form a) <=? parseFloat1 (Squad.form b))%num = true.

Definition ascendingProj (a b : Proj.t) : Prop :=
  toNumber (Proj.gameweek a) <= toNumber (Proj.gameweek b).

(** The requests of a full run, in the order they are sent. *)
Definition requestPlan (teamId : string) (gw : Z) : list FPL_API.url :=
  [FPL_API.bootstrap; FPL_API.team teamId; FPL_API.fixtures; FPL_API.picks teamId gw].

Definition typeErrorText : string :=
  "Cannot read properties of undefined (reading 'team_code')".

Definition failure500 (m : string) : Response.t :=
  {| Response.statusCode := 500;
     Response.headers := headers;
     Response.body_ := Object [("error", "Failed to analyze team"); ("message", m)] |}.

(** Further sample requests and upstreams. *)
Module SampleExtra.

(** The manager has picked an element the catalogue does not have. *)
Definition strangerPicks : list Pick.t := [SampleWorld.pick 10; SampleWorld.pick 99].

Definition strangerUp : Upstream :=
  {| serve_bootstrap := Ok SampleWorld.bootstrapData;
     serve_team := fun _ => Ok SampleWorld.teamData;
     serve_fixtures := Ok Sample.twoFixtures;
     serve_picks := fun _ _ => Ok strangerPicks |}.

(** The entry endpoint is down. *)
Definition entryDownUp : Upstream :=
  {| serve_bootstrap := Ok SampleWorld.bootstrapData;
     serve_team := fun _ => Throw "entry unavailable";
     serve_fixtures := Ok Sample.twoFixtures;
     serve_picks := fun _ _ => Ok SampleWorld.picks |}.

(** The picks endpoint is down. *)
Definition picksDownUp : Upstream :=
  {| serve_bootstrap := Ok SampleWorld.bootstrapData;
     serve_team := fun _ => Ok SampleWorld.teamData;
     serve_fixtures := Ok Sample.twoFixtures;
     serve_picks := fun _ _ => Throw "picks unavailable" |}.

(** Gameweek 2 is the current one. *)
Definition midSeason : Bootstrap.t :=
  {| Bootstrap.events :=
       [ {| Event.id := Some 1; Event.is_current := false |};
         {| Event.id := Some 2; Event.is_current := true |} ];
     Bootstrap.elements := Bootstrap.elements SampleWorld.bootstrapData;
     Bootstrap.teams := Sample.teams |}.

Definition midSeasonUp : Upstream :=
  {| serve_bootstrap := Ok midSeason;
     serve_team := fun _ => Ok SampleWorld.teamData;
     serve_fixtures := Ok Sample.twoFixtures;
     serve_picks := fun _ _ => Ok SampleWorld.picks |}.

End SampleExtra.

(** The squad entry made for a pick from the element it names. *)
Definition entryFor (bootstrapData : Bootstrap.t) (pick : Pick.t) (s : Squad.t)
    : Prop :=
  exists e,
    In e (Bootstrap.elements bootstrapData)
    /\ Element.id e = Pick.element pick
    /\ Squad.id s = Pick.element pick
    /\ Squad.name s = Element.web_name e
    /\ Squad.team s = Player.team (playerOf bootstrapData e)
    /\ Squad.position s = getPosition (Element.element_type e)
    /\ Squad.price s = (ofZ (Element.now_cost e) / ofZ 10)%num
    /\ Squad.form s = toFixed1 (Element.form e)
    /\ Squad.isCaptain s = Pick.is_captain pick
    /\ Squad.isViceCaptain s = Pick.is_vice_captain pick.

(** The form of a squad member as a rational (0 when it is not a number). *)
Definition formRank (p : Squad.t) : Q :=
  match parseFloat1 (Squad.form p) with
  | Fin q => q
  | NaN => 0%Q
  end.

(** The difficulty ratings of a window lie between 1 and 5. *)
Definition ratedOneToFive (fixtures : list Proj.t) : Prop :=
  Forall (fun f => 1 <= Proj.difficulty f <= 5) fixtures.

(** Every character of the text is ASCII white space. *)
Definition allSpaces (s : string) : bool :=
  forallb App.isSpace (list_ascii_of_string s).

(** Every character of the text is an ASCII character (a code below 128);
    on such text the bytes of the model are the characters of the source. *)
Definition isAsciiText (s : string) : bool :=
  forallb (fun c => (nat_of_ascii c <? 128)%nat) (list_ascii_of_string s).

(** Sample states and servers of the client. *)
Module SampleApp.

Definition idle (teamId : string) : App.state nat :=
  {| App.teamId := teamId; App.loading := false;
     App.error := None; App.analysis := Some 7%nat |}.

Definition okServer (url : string) : App.reply nat :=
  App.Response true "OK" (Ok 42%nat).

Definition brokenServer (url : string) : App.reply nat :=
  App.Response false "Internal Server Error" (Throw "Unexpected token").

End SampleApp.

(** ** Binary64

    JavaScript numbers are IEEE 754 binary64 values. Where the rounding of
    the arithmetic decides a property, the function is embedded a second
    time over binary64, with the Standard Library's [spec_float] and its
    correctly rounded operations (53 bits of precision, exponents up to
    1024). *)

Module B64.

Definition prec : Z := 53.
Definition emax : Z := 1024.

Definition float64 : Type := spec_float.

(** The number of an integer literal (exact below 2^53). *)
Definition ofZ (z : Z) : float64 := binary_normalize prec emax z 0 false.

Definition add : float64 -> float64 -> float64 := SFadd prec emax.
Definition sub : float64 -> float64 -> float64 := SFsub prec emax.
Definition mul : float64 -> float64 -> float64 := SFmul prec emax.
Definition div : float64 -> float64 -> float64 := SFdiv prec emax.


(** [x >= y] and [x < y]: false as soon as one side is [NaN]. *)
Definition geb (x y : float64) : bool := SFleb y x.
Definition ltb (x y : float64) : bool := SFltb x y.

Definition is_nan (x : float64) : bool :=
  match x with S754_nan => true | _ => false end.

Definition totalScore (form avgDifficulty : float64) : float64 :=
  let formScore := mul form (ofZ 2) in
  let fixtureBonus := mul (sub (ofZ 5) avgDifficulty) (ofZ 2) in
  add formScore fixtureBonus.

Definition getRating (form avgDifficulty : float64) : string :=
  let totalScore := totalScore form avgDifficulty in
  if geb totalScore (ofZ 14) then "Excellent"
  else if geb totalScore (ofZ 10) then "Good"
  else if geb totalScore (ofZ 6) then "Average"
  else "Poor".

End B64.

(** * Properties *)

(** ** Numbers *)

Lemma Qlt_bool_iff (x y : Q) : Qlt_bool x y = true <-> (x < y)%Q.
Proof.
  unfold Qlt_bool. rewrite negb_true_iff.
  split; intro H.
  - apply Qnot_le_lt. intro Hle. apply Qle_bool_iff in Hle. congruence.
  - destruct (Qle_bool y x) eqn:E; [|reflexivity].
    apply Qle_bool_iff in E. exfalso. apply (Qlt_not_le _ _ H E).
Qed.

Lemma geb_Fin (x y : Q) : (Fin x >=? Fin y)%num = true <-> (y <= x)%Q.
Proof. apply Qle_bool_iff. Qed.

Lemma geb_Fin_false (x y : Q) : (Fin x >=? Fin y)%num = false <-> (x < y)%Q.
Proof.
  unfold geb, leb, cmp2. split; intro H.
  - apply Qlt_bool_iff. unfold Qlt_bool. now rewrite H.
  - apply Qlt_bool_iff in H. unfold Qlt_bool in H. now apply negb_true_iff.
Qed.

Lemma or_else_not_nan (a b : num) : is_nan b = false -> is_nan (a || b)%num = false.
Proof. unfold or_else. destruct a; simpl; auto. destruct (Qeq_bool q 0); auto. Qed.

(** ** Rating *)

Lemma totalScore_Fin (form avgDifficulty : Q) :
  totalScore (Fin form) (Fin avgDifficulty)
  = Fin (form * inject_Z 2 + (inject_Z 5 - avgDifficulty) * inject_Z 2)%Q.
Proof. reflexivity. Qed.

(** ** Rating over binary64 *)











(** ** Maps *)

Lemma key_eqb_eq (a b : key) : key_eqb a b = true <-> a = b.
Proof.
  destruct a, b; simpl; split; intro H; try discriminate; try congruence.
  - apply String.eqb_eq in H. congruence.
  - injection H as ->. apply String.eqb_refl.
  - apply Z.eqb_eq in H. congruence.
  - injection H as ->. apply Z.eqb_refl.
Qed.

Lemma key_eqb_refl (a : key) : key_eqb a a = true.
Proof. now apply key_eqb_eq. Qed.

Lemma get_set_same {V} (k : key) (v : V) (m : JsMap.t V) :
  JsMap.get k (JsMap.set k v m) = Some v.
Proof.
  induction m as [|[k' v'] m IH]; simpl.
  - now rewrite key_eqb_refl.
  - destruct (key_eqb k' k) eqn:E; simpl; rewrite E; auto.
Qed.

Lemma get_set_other {V} (k k0 : key) (v : V) (m : JsMap.t V) :
  k0 <> k -> JsMap.get k (JsMap.set k0 v m) = JsMap.get k m.
Proof.
  intro Hne.
  assert (Hk : key_eqb k0 k = false).
  { destruct (key_eqb k0 k) eqn:E; auto. apply key_eqb_eq in E. contradiction. }
  induction m as [|[k' v'] m IH]; simpl.
  - now rewrite Hk.
  - destruct (key_eqb k' k0) eqn:E; simpl.
    + apply key_eqb_eq in E. subst k'. now rewrite Hk.
    + destruct (key_eqb k' k); auto.
Qed.

Section FoldSet.
Context {E V : Type}.
Variable keyOf : E -> key.
Variable valOf : E -> V.

(** A key that no entry sets keeps what it had. *)
Lemma get_fold_set_absent (k : key) (l : list E) (m : JsMap.t V) :
  (forall e, In e l -> keyOf e <> k) ->
  JsMap.get k (fold_left (setEntry keyOf valOf) l m) = JsMap.get k m.
Proof.
  revert m. induction l as [|e l IH]; intros m H; simpl; auto.
  rewrite IH by (intros; apply H; now right).
  apply get_set_other. apply H. now left.
Qed.

(** A key set by some entry, always to the same value, ends with it. *)
Lemma get_fold_set_present (k : key) (v : V) (l : list E) (m : JsMap.t V) :
  (exists e, In e l /\ keyOf e = k) ->
  (forall e, In e l -> keyOf e = k -> valOf e = v) ->
  JsMap.get k (fold_left (setEntry keyOf valOf) l m) = Some v.
Proof.
  revert m. induction l as [|e l IH] using rev_ind; intros m [e0 [Hin Hk]] Hv.
  - destruct Hin.
  - rewrite fold_left_app. simpl. unfold setEntry at 1.
    destruct (key_eqb (keyOf e) k) eqn:Ek.
    + apply key_eqb_eq in Ek. rewrite Ek.
      rewrite get_set_same. f_equal. apply Hv; auto.
      apply in_or_app. right. now left.
    + assert (Hne : keyOf e <> k).
      { intro Heq. rewrite Heq, key_eqb_refl in Ek. discriminate. }
      rewrite get_set_other by exact Hne.
      apply IH.
      * exists e0. split; auto.
        apply in_app_or in Hin. destruct Hin as [Hin|[Hin|[]]]; auto.
        subst e0. contradiction.
      * intros e' He' Hk'. apply Hv; auto. apply in_or_app. now left.
Qed.

(** Whatever a key ends with was set by an entry, or was there before. *)
Lemma get_fold_set_inv (k : key) (v : V) (l : list E) (m : JsMap.t V) :
  JsMap.get k (fold_left (setEntry keyOf valOf) l m) = Some v ->
  JsMap.get k m = Some v \/ exists e, In e l /\ keyOf e = k /\ valOf e = v.
Proof.
  revert m. induction l as [|e l IH] using rev_ind; intros m H.
  - now left.
  - rewrite fold_left_app in H. simpl in H. unfold setEntry at 1 in H.
    destruct (key_eqb (keyOf e) k) eqn:Ek.
    + apply key_eqb_eq in Ek. rewrite Ek, get_set_same in H.
      right. exists e. repeat split; try congruence.
      apply in_or_app. right. now left.
    + assert (Hne : keyOf e <> k).
      { intro Heq. rewrite Heq, key_eqb_refl in Ek. discriminate. }
      rewrite get_set_other in H by exact Hne.
      destruct (IH _ H) as [Hm|[e' [Hin He']]]; [now left|].
      right. exists e'. split; auto. apply in_or_app. now left.
Qed.
End FoldSet.

(** ** Sorting *)

Lemma slice0_In {A} (n : nat) (l : list A) (x : A) : In x (slice0 n l) -> In x l.
Proof.
  unfold slice0. revert l. induction n as [|n IH]; intros [|y l]; simpl; auto.
  - intros [].
  - intros [H|H]; auto.
Qed.

Section SortFacts.
Context {A : Type}.
Variable compareFn : A -> A -> num.

Lemma insert_perm (x : A) (l : list A) : Permutation (insert compareFn x l) (x :: l).
Proof.
  induction l as [|y l IH]; simpl; auto.
  destruct (after compareFn x y); auto.
  rewrite IH. apply perm_swap.
Qed.

Lemma sort_perm (l : list A) : Permutation (sort compareFn l) l.
Proof.
  induction l as [|x l IH]; simpl; auto.
  unfold sort in IH. rewrite insert_perm. now constructor.
Qed.

Lemma sort_In (x : A) (l : list A) : In x (sort compareFn l) <-> In x l.
Proof.
  split; apply Permutation_in; [|symmetry]; apply sort_perm.
Qed.

Lemma sort_In_inv (x : A) (l : list A) : In x (sort compareFn l) -> In x l.
Proof. apply sort_In. Qed.

Lemma sort_length (l : list A) : List.length (sort compareFn l) = List.length l.
Proof. apply Permutation_length, sort_perm. Qed.

(** When the comparator orders the elements by a rational rank. *)
Variable rank : A -> Q.
Variable ranked : A -> Prop.
Hypothesis after_rank :
  forall x y, ranked x -> ranked y ->
    after compareFn x y = Qlt_bool (rank y) (rank x).

Lemma insert_sorted (x : A) (l : list A) :
  ranked x -> Forall ranked l -> StronglySorted (rank_le rank) l ->
  StronglySorted (rank_le rank) (insert compareFn x l).
Proof.
  intros Hx Hl Hs. induction Hs as [|y l Hs IH Hy]; simpl.
  - repeat constructor.
  - inversion Hl as [|? ? Hry Hrl]; subst.
    rewrite after_rank by assumption.
    destruct (Qlt_bool (rank y) (rank x)) eqn:E.
    + apply Qlt_bool_iff in E.
      constructor; [now apply IH|].
      rewrite (insert_perm x l). constructor; auto.
      unfold rank_le. now apply Qlt_le_weak.
    + assert (Hle : (rank x <= rank y)%Q).
      { apply Qnot_lt_le. intro Hlt. apply Qlt_bool_iff in Hlt. congruence. }
      constructor; [now constructor|].
      constructor; auto.
      eapply Forall_impl; [|exact Hy].
      intros z Hz. unfold rank_le in *. now apply Qle_trans with (rank y).
Qed.

Lemma sort_ranked (l : list A) : Forall ranked l -> Forall ranked (sort compareFn l).
Proof.
  intro H. rewrite Forall_forall in *. intros x Hx.
  apply H. now apply (proj1 (sort_In x l)).
Qed.

Lemma sort_sorted (l : list A) :
  Forall ranked l -> StronglySorted (rank_le rank) (sort compareFn l).
Proof.
  induction l as [|x l IH]; intro H; simpl.
  - constructor.
  - inversion H; subst. apply insert_sorted; auto. now apply sort_ranked.
Qed.

(** An element ranked no higher than all the others is inserted in front. *)
Lemma insert_front (p : A -> bool) (x : A) (l : list A) :
  ranked x -> Forall ranked l -> Forall (rank_le rank x) l ->
  insert compareFn x (filter p l) = x :: filter p l.
Proof.
  intros Hx Hl Hle. induction l as [|z l IH]; simpl; [reflexivity|].
  inversion Hl as [|? ? Hrz Hrl]; subst.
  inversion Hle as [|? ? Hxz Hxl]; subst.
  destruct (p z); simpl; [|now apply IH].
  rewrite after_rank by assumption.
  destruct (Qlt_bool (rank z) (rank x)) eqn:E; [|reflexivity].
  apply Qlt_bool_iff in E. exfalso. apply (Qlt_not_le _ _ E Hxz).
Qed.

(** Filtering commutes with inserting into a sorted array. *)
Lemma filter_insert (p : A -> bool) (x : A) (l : list A) :
  ranked x -> Forall ranked l -> StronglySorted (rank_le rank) l ->
  filter p (insert compareFn x l)
  = if p x then insert compareFn x (filter p l) else filter p l.
Proof.
  intros Hx Hl Hs. induction Hs as [|y l Hs IH Hy]; simpl.
  - destruct (p x); reflexivity.
  - inversion Hl as [|? ? Hry Hrl]; subst.
    specialize (IH Hrl).
    destruct (after compareFn x y) eqn:E; simpl.
    + rewrite IH. destruct (p y), (p x); simpl; try rewrite E; reflexivity.
    + destruct (p x) eqn:Epx; [|reflexivity].
      destruct (p y) eqn:Epy; simpl; [now rewrite E|].
      rewrite after_rank in E by assumption.
      assert (Hle : (rank x <= rank y)%Q).
      { apply Qnot_lt_le. intro Hlt. apply Qlt_bool_iff in Hlt. congruence. }
      symmetry. apply insert_front; auto.
      eapply Forall_impl; [|exact Hy].
      intros z Hz. unfold rank_le in *. now apply Qle_trans with (rank y).
Qed.

Lemma filter_sort (p : A -> bool) (l : list A) :
  Forall ranked l -> filter p (sort compareFn l) = sort compareFn (filter p l).
Proof.
  induction l as [|x l IH]; intro H; simpl; [reflexivity|].
  inversion H; subst.
  rewrite filter_insert; auto using sort_ranked, sort_sorted.
  rewrite IH by assumption.
  destruct (p x); reflexivity.
Qed.
End SortFacts.

(** ** Fixture projector *)

Lemma after_byEvent (x y : Fixture.t) :
  after byEvent x y = Qlt_bool (eventRank y) (eventRank x).
Proof.
  unfold after, byEvent, gtb, ltb, cmp2, ofZ, eventRank.
  set (a := toNumber (Fixture.event x)). set (b := toNumber (Fixture.event y)).
  destruct (Qlt_bool (inject_Z b) (inject_Z a)) eqn:E.
  - apply Qlt_bool_iff. apply Qlt_bool_iff in E.
    rewrite <- Zlt_Qlt in *. lia.
  - apply not_true_is_false. intro H. apply Qlt_bool_iff in H.
    apply not_true_iff_false in E. apply E. apply Qlt_bool_iff.
    rewrite <- Zlt_Qlt in *. lia.
Qed.

Lemma filter_filter {A} (p q : A -> bool) (l : list A) :
  filter p (filter q l) = filter (fun x => p x && q x) l.
Proof.
  induction l as [|x l IH]; simpl; auto.
  destruct (q x); simpl; destruct (p x); simpl; rewrite ?IH; auto.
Qed.

(** Selecting a team's fixtures after sorting the window is sorting the
    team's fixtures of the window. *)
Lemma team_fixtures_sorted (currentGW : Z) (team : Team.t) (allFixtures : list Fixture.t) :
  filter (participates team) (sort byEvent (filter (inWindow currentGW) allFixtures))
  = sort byEvent (qualifying currentGW team allFixtures).
Proof.
  rewrite (filter_sort byEvent eventRank (fun _ => True)).
  - now rewrite filter_filter.
  - intros. apply after_byEvent.
  - apply Forall_forall. auto.
Qed.

Lemma sort_byEvent_ascending (l : list Fixture.t) :
  StronglySorted ascendingGameweek (sort byEvent l).
Proof.
  assert (H : StronglySorted (rank_le eventRank) (sort byEvent l)).
  { apply (sort_sorted byEvent eventRank (fun _ => True)).
    - intros. apply after_byEvent.
    - apply Forall_forall. auto. }
  induction H; constructor; auto.
  eapply Forall_impl; [|eassumption].
  intros b Hb. unfold rank_le, eventRank in Hb. unfold ascendingGameweek.
  now rewrite <- Zle_Qle in Hb.
Qed.

Lemma fold_left_pointwise {A B} (f g : A -> B -> A) (l : list B) (a : A) :
  (forall x y, f x y = g x y) -> fold_left f l a = fold_left g l a.
Proof.
  intro H. revert a. induction l as [|y l IH]; intro a; simpl; [reflexivity|].
  rewrite H. apply IH.
Qed.

Lemma getNextFixtures_fold (allFixtures : list Fixture.t) (currentGW : Z)
    (teamsMap : JsMap.t Team.t) :
  getNextFixtures allFixtures currentGW teamsMap
  = fold_left
      (fun m entry =>
         JsMap.set (KStr (Team.short_name (snd entry)))
                   (projection allFixtures currentGW teamsMap (snd entry)) m)
      teamsMap JsMap.empty.
Proof.
  unfold getNextFixtures, projection.
  apply fold_left_pointwise. intros m e.
  now rewrite team_fixtures_sorted.
Qed.

Lemma getNextFixtures_inv (allFixtures : list Fixture.t) (currentGW : Z)
    (teamsMap : JsMap.t Team.t) (k : key) (fixtures : list Proj.t) :
  JsMap.get k (getNextFixtures allFixtures currentGW teamsMap) = Some fixtures ->
  exists id team,
    In (id, team) teamsMap /\ k = KStr (Team.short_name team)
    /\ fixtures = projection allFixtures currentGW teamsMap team.
Proof.
  rewrite getNextFixtures_fold. intro H.
  apply (get_fold_set_inv
           (fun e : key * Team.t => KStr (Team.short_name (snd e)))
           (fun e => projection allFixtures currentGW teamsMap (snd e))) in H.
  destruct H as [H|[[id team] [Hin [Hk Hv]]]]; [discriminate|].
  exists id, team. simpl in *. repeat split; auto.
Qed.

(** The map is keyed by strings only. *)
Lemma getNextFixtures_number_key (allFixtures : list Fixture.t) (currentGW : Z)
    (teamsMap : JsMap.t Team.t) (z : Z) :
  JsMap.get (KNum z) (getNextFixtures allFixtures currentGW teamsMap) = None.
Proof.
  destruct (JsMap.get _ _) eqn:E; [|reflexivity].
  apply getNextFixtures_inv in E. destruct E as [id [team [_ [Hk _]]]]. discriminate.
Qed.

Lemma qualifying_In (currentGW : Z) (team : Team.t) (allFixtures : list Fixture.t)
    (f : Fixture.t) :
  In f (qualifying currentGW team allFixtures) <->
  In f allFixtures
  /\ (Fixture.team_h f = Team.id team \/ Fixture.team_a f = Team.id team)
  /\ currentGW <= toNumber (Fixture.event f) <= currentGW + 8.
Proof.
  unfold qualifying, participates, inWindow. rewrite filter_In.
  rewrite !andb_true_iff, orb_true_iff, !Z.eqb_eq, Z.geb_le, Z.leb_le.
  tauto.
Qed.

(** C6, as stated, fails: with a fixture in each of the nine gameweeks of
    the window, the ninth is dropped by [slice(0, 8)]; and of two teams with
    one short name only the later one is kept. *)
Lemma projector_drops_ninth_fixture :
  (exists fixtures,
     JsMap.get (KStr "ARS") (getNextFixtures Sample.nineFixtures 1 Sample.teamsMap)
     = Some fixtures
     /\ List.length fixtures = 8%nat
     /\ In (Sample.arsChe 9) (qualifying 1 Sample.ARS Sample.nineFixtures)
     /\ ~ In (Some 9) (map Proj.gameweek fixtures))
  /\ JsMap.get (KStr "ARS")
       (getNextFixtures Sample.twoFixtures 1 Sample.clashingTeamsMap) = Some []
  /\ qualifying 1 Sample.ARS Sample.twoFixtures = Sample.twoFixtures.
Proof.
  split; [|split; reflexivity].
  eexists. split; [vm_compute; reflexivity|].
  split; [reflexivity|]. split.
  - vm_compute. now left.
  - simpl. intros H. repeat destruct H as [H|H]; try discriminate H. exact H.
Qed.

(** C6 (amended). Under the short name of a team of the lookup (teams with
    the same short name being the same team) the projector stores the first 8
    of the fixtures in which the team participates and whose gameweek lies in
    [currentGW, currentGW + 8], in ascending gameweek order, each annotated
    with its gameweek, the opponent's short code (prefixed with "@" when
    away), the team's own difficulty rating and the home flag. *)
Theorem getNextFixtures_contract (allFixtures : list Fixture.t) (currentGW : Z)
    (teamsMap : JsMap.t Team.t) (id : key) (team : Team.t) :
  In (id, team) teamsMap ->
  (forall id' team', In (id', team') teamsMap ->
     Team.short_name team' = Team.short_name team -> team' = team) ->
  let fixtures := sort byEvent (qualifying currentGW team allFixtures) in
  JsMap.get (KStr (Team.short_name team))
            (getNextFixtures allFixtures currentGW teamsMap)
  = Some (slice0 8 (map (project teamsMap team) fixtures))
  /\ StronglySorted ascendingGameweek fixtures
  /\ Permutation fixtures (qualifying currentGW team allFixtures)
  /\ (forall f, In f fixtures <->
        In f allFixtures
        /\ (Fixture.team_h f = Team.id team \/ Fixture.team_a f = Team.id team)
        /\ currentGW <= toNumber (Fixture.event f) <= currentGW + 8)
  /\ (forall f,
        let p := project teamsMap team f in
        Proj.gameweek p = Fixture.event f
        /\ Proj.isHome p = (Fixture.team_h f =? Team.id team)
        /\ Proj.difficulty p
           = (if Proj.isHome p then Fixture.team_h_difficulty f
              else Fixture.team_a_difficulty f)
        /\ Proj.opponent p
           = (if Proj.isHome p then "" else "@")
               ++ template_opt
                    (option_map Team.short_name
                       (JsMap.get
                          (KNum (if Proj.isHome p then Fixture.team_a f
                                 else Fixture.team_h f))
                          teamsMap))).
Proof.
  intros Hin Huniq fixtures.
  split; [|split; [|split; [|split]]].
  - rewrite getNextFixtures_fold.
    apply (get_fold_set_present
             (fun e : key * Team.t => KStr (Team.short_name (snd e)))
             (fun e => projection allFixtures currentGW teamsMap (snd e))).
    + exists (id, team). auto.
    + intros [id' team'] Hin' Hk. simpl in *.
      injection Hk as Hk. now rewrite (Huniq id' team' Hin' Hk).
  - apply sort_byEvent_ascending.
  - apply sort_perm.
  - intro f. unfold fixtures. rewrite (sort_In byEvent). apply qualifying_In.
  - intros f p. unfold p, project. simpl.
    destruct (Fixture.team_h f =? Team.id team); repeat split.
Qed.

Lemma getNextFixtures_contract_witness :
  JsMap.get (KStr "CHE") (getNextFixtures Sample.twoFixtures 1 Sample.teamsMap)
  = Some [ {| Proj.gameweek := Some 1; Proj.opponent := "@ARS";
              Proj.difficulty := 4; Proj.isHome := false |};
           {| Proj.gameweek := Some 2; Proj.opponent := "@ARS";
              Proj.difficulty := 4; Proj.isHome := false |} ].
Proof.
  refine (proj1 (getNextFixtures_contract Sample.twoFixtures 1 Sample.teamsMap
                   (KNum 2) Sample.CHE _ _)).
  - simpl. right. left. reflexivity.
  - intros id' team' H Hname. simpl in H.
    destruct H as [H|[H|[H|[]]]]; injection H as _ <-;
      first [ reflexivity | discriminate Hname ].
Defined.

(** ** Average difficulty *)

Lemma averageDifficulty_not_nan (fixtures : list Proj.t) :
  is_nan (averageDifficulty fixtures) = false.
Proof. unfold averageDifficulty. now apply or_else_not_nan. Qed.

Lemma window_empty_iff (n : nat) (k : key) (teamFixtures : teamFixturesMap) :
  window (S n) k teamFixtures = [] <->
  JsMap.get k teamFixtures = None \/ JsMap.get k teamFixtures = Some [].
Proof.
  unfold window. destruct (JsMap.get k teamFixtures) as [[|f fs]|]; simpl;
    split; intro H; auto; try discriminate.
  destruct H as [H|H]; discriminate.
Qed.

(** C4. When the fixture window of a team is empty (the team is not in the
    projection, or has no projected fixture), the average difficulty is the
    neutral 3, in the squad analyzer and in the scoring of transfer
    candidates; and no average difficulty is ever [NaN]. *)
Theorem empty_window_neutral_default (teamFixtures : teamFixturesMap) (k : key) :
  JsMap.get k teamFixtures = None \/ JsMap.get k teamFixtures = Some [] ->
  averageDifficulty (window 5 k teamFixtures) = ofZ 3
  /\ (forall fixtures, is_nan (averageDifficulty fixtures) = false)
  /\ (forall playersMap pick player,
        JsMap.get (KNum (Pick.element pick)) playersMap = Some player ->
        KNum (Player.team_code player) = k ->
        exists s,
          analyzePick playersMap teamFixtures pick = Ok s
          /\ Squad.avgDifficulty s = toFixed1 (ofZ 3)
          /\ Squad.rating s = getRating (Player.form player) (ofZ 3))
  /\ (forall p,
        KStr (Player.team p) = k ->
        Candidate.avgDifficulty (toCandidate teamFixtures p) = ofZ 3
        /\ candidateScore (toCandidate teamFixtures p)
           = (Player.form p * ofZ 2 - ofZ 3)%num).
Proof.
  intro H. apply (window_empty_iff 4) in H.
  split; [now rewrite H|].
  split; [apply averageDifficulty_not_nan|].
  split.
  - intros playersMap pick player Hget Hk. unfold analyzePick.
    rewrite Hget, Hk, H. eexists. split; [reflexivity|]. split; reflexivity.
  - intros p Hk. unfold candidateScore, toCandidate. simpl.
    rewrite Hk, H. split; reflexivity.
Qed.

Lemma empty_window_neutral_default_witness :
  averageDifficulty (window 5 (KStr "LIV") []) = ofZ 3.
Proof.
  apply (empty_window_neutral_default [] (KStr "LIV")).
  left. reflexivity.
Defined.

(** ** Transfer suggester *)

(** C8. At most 2 transfer recommendations are returned. *)
Theorem at_most_two_transfers (squad : list Squad.t) (playersMap : JsMap.t Player.t)
    (teamFixtures : teamFixturesMap) (bank : num) :
  (List.length (findTransferOpportunities squad playersMap teamFixtures bank) <= 2)%nat.
Proof. unfold findTransferOpportunities, slice0. apply firstn_le_length. Qed.

(** ** Insight generator *)

Lemma thresholdInsights_no_transfer_insight (squad : list Squad.t) (teamData : Entry.t) :
  count isTransferInsight (thresholdInsights squad teamData) = 0%nat.
Proof.
  unfold thresholdInsights, count.
  repeat match goal with
         | |- context [if ?b then _ else _] => destruct b
         end; reflexivity.
Qed.

Lemma count_app {A} (p : A -> bool) (l1 l2 : list A) :
  count p (l1 ++ l2) = (count p l1 + count p l2)%nat.
Proof. unfold count. now rewrite filter_app, length_app. Qed.

(** C9. Exactly one of the two closing insights is appended, as the last
    entry: the transfers-found message when the transfer list is not empty,
    the no-transfers-needed message when it is. *)
Theorem generateInsights_final_insight (squad : list Squad.t)
    (transfers : list Transfer.t) (teamData : Entry.t) :
  count isTransferInsight (generateInsights squad transfers teamData) = 1%nat
  /\ (forall d,
        last (generateInsights squad transfers teamData) d
        = match transfers with
          | [] => teamLookingSolid
          | _ :: _ => transferOpportunities (List.length transfers)
          end)
  /\ (forall d, last (generateInsights squad [] teamData) d = teamLookingSolid).
Proof.
  assert (Hlast : forall d,
             last (generateInsights squad transfers teamData) d
             = match transfers with
               | [] => teamLookingSolid
               | _ :: _ => transferOpportunities (List.length transfers)
               end).
  { intro d. unfold generateInsights. destruct transfers; apply last_last. }
  split; [|split; [exact Hlast|]].
  - unfold generateInsights.
    destruct transfers; rewrite count_app, thresholdInsights_no_transfer_insight;
      reflexivity.
  - intro d. unfold generateInsights. apply last_last.
Qed.

(** ** Handler *)

(** C7, as stated, fails: a preflight request without the identifier is
    answered 200 with an empty body, not 400. *)
Lemma preflight_without_identifier_is_200 :
  teamIdOf SampleUpstream.preflight = None
  /\ handler SampleUpstream.preflight SampleUpstream.offline []
     = (Ok {| Response.statusCode := 200;
              Response.headers := headers;
              Response.body_ := Empty |}, []).
Proof. split; reflexivity. Qed.

Lemma method_eqb_false (event : Request.t) :
  Request.httpMethod event <> "OPTIONS" ->
  String.eqb (Request.httpMethod event) "OPTIONS" = false.
Proof. intro H. now apply String.eqb_neq. Qed.

(** C7 (amended). A request other than a preflight whose identifier is
    missing or empty is answered 400 with an object that has an "error"
    member, and no upstream request is sent. *)
Theorem missing_identifier_is_400 (event : Request.t) (up : Upstream)
    (sent : list FPL_API.url) :
  Request.httpMethod event <> "OPTIONS" ->
  teamIdOf event = None \/ teamIdOf event = Some "" ->
  exists r members,
    handler event up sent = (Ok r, sent)
    /\ Response.statusCode r = 400
    /\ Response.body_ r = Object members
    /\ member "error" members = Some "Team ID is required".
Proof.
  intros Hm Hid. unfold handler. rewrite (method_eqb_false _ Hm).
  do 2 eexists.
  destruct Hid as [-> | ->]; (split; [reflexivity|]); repeat split.
Qed.

Lemma missing_identifier_is_400_witness :
  exists r members,
    handler SampleUpstream.getEmptyId SampleUpstream.offline [] = (Ok r, [])
    /\ Response.statusCode r = 400
    /\ Response.body_ r = Object members
    /\ member "error" members = Some "Team ID is required".
Proof.
  apply (missing_identifier_is_400 SampleUpstream.getEmptyId SampleUpstream.offline []).
  - discriminate.
  - right. reflexivity.
Defined.

Lemma project_window (allFixtures : list Fixture.t) (currentGW : Z)
    (teamsMap : JsMap.t Team.t) (k : key) (fixtures : list Proj.t) (p : Proj.t) :
  JsMap.get k (getNextFixtures allFixtures currentGW teamsMap) = Some fixtures ->
  In p fixtures ->
  currentGW <= toNumber (Proj.gameweek p) <= currentGW + 8.
Proof.
  intros Hget Hin.
  apply getNextFixtures_inv in Hget. destruct Hget as [id [team [_ [_ ->]]]].
  unfold projection in Hin. apply slice0_In, in_map_iff in Hin.
  destruct Hin as [f [<- Hf]].
  apply sort_In_inv, qualifying_In in Hf. simpl. tauto.
Qed.

(** C10. When no event of the catalogue is marked current, or the marked one
    has no id, the current gameweek is 1. The picks of gameweek 1 are
    requested; the analysis the handler returns reports gameweek 1 and takes
    its squad, transfers and captains from the fixture projection made with
    current gameweek 1; and that projection stores for a team the first 8 of
    its fixtures of the gameweeks 1 to 9, and no fixture of another
    gameweek. *)
Theorem default_gameweek_is_1 (event : Request.t) (up : Upstream)
    (sent : list FPL_API.url) (teamId : string)
    (bootstrapData : Bootstrap.t) (teamData : Entry.t) (fixturesData : list Fixture.t) :
  Request.httpMethod event <> "OPTIONS" ->
  teamIdOf event = Some teamId -> teamId <> "" ->
  serve_bootstrap up = Ok bootstrapData ->
  serve_team up teamId = Ok teamData ->
  serve_fixtures up = Ok fixturesData ->
  (forall e, find Event.is_current (Bootstrap.events bootstrapData) = Some e ->
             Event.id e = None) ->
  let teamFixtures := getNextFixtures fixturesData 1 (buildTeamsMap bootstrapData) in
  currentGameweek bootstrapData = 1
  /\ snd (handler event up sent)
     = (sent ++ [FPL_API.bootstrap; FPL_API.team teamId; FPL_API.fixtures;
                 FPL_API.picks teamId 1])%list
  /\ (forall picks a,
        serve_picks up teamId 1 = Ok picks ->
        analyze bootstrapData teamData fixturesData picks 1 = Ok a ->
        fst (handler event up sent)
        = Ok {| Response.statusCode := 200;
                Response.headers := headers;
                Response.body_ := AnalysisObject a |}
        /\ Analysis.currentGW a = 1)
  /\ (forall a,
        fst (handler event up sent)
        = Ok {| Response.statusCode := 200;
                Response.headers := headers;
                Response.body_ := AnalysisObject a |} ->
        exists picks,
          serve_picks up teamId 1 = Ok picks
          /\ Analysis.currentGW a = 1
          /\ mapThrow (analyzePick (buildPlayersMap bootstrapData) teamFixtures) picks
             = Ok (Analysis.squad a)
          /\ Analysis.transfers a
             = findTransferOpportunities (Analysis.squad a)
                 (buildPlayersMap bootstrapData) teamFixtures
                 (ofZ (Entry.last_deadline_bank teamData) / ofZ 10)%num
          /\ Analysis.captains a
             = getCaptainRecommendations (Analysis.squad a) teamFixtures)
  /\ (forall k fixtures p,
        JsMap.get k teamFixtures = Some fixtures ->
        In p fixtures -> 1 <= toNumber (Proj.gameweek p) <= 9)
  /\ (forall id team,
        In (id, team) (buildTeamsMap bootstrapData) ->
        (forall id' team', In (id', team') (buildTeamsMap bootstrapData) ->
           Team.short_name team' = Team.short_name team -> team' = team) ->
        JsMap.get (KStr (Team.short_name team)) teamFixtures
        = Some (slice0 8
                  (map (project (buildTeamsMap bootstrapData) team)
                     (sort byEvent
                        (filter (fun f =>
                                   participates team f
                                   && ((1 <=? toNumber (Fixture.event f))
                                       && (toNumber (Fixture.event f) <=? 9)))
                                fixturesData))))).
Proof.
  intros Hm Hid Hne Hb Ht Hf Hcur teamFixtures.
  assert (Hgw : currentGameweek bootstrapData = 1).
  { unfold currentGameweek.
    destruct (find Event.is_current (Bootstrap.events bootstrapData)) as [e|];
      [|reflexivity].
    now rewrite (Hcur e eq_refl). }
  assert (Hrun : handler event up sent
                 = catch500 (tryBlock teamId) up sent).
  { unfold handler. rewrite (method_eqb_false _ Hm), Hid.
    destruct teamId; [contradiction|reflexivity]. }
  assert (Hproj : forall id team,
             In (id, team) (buildTeamsMap bootstrapData) ->
             (forall id' team', In (id', team') (buildTeamsMap bootstrapData) ->
                Team.short_name team' = Team.short_name team -> team' = team) ->
             JsMap.get (KStr (Team.short_name team)) teamFixtures
             = Some (slice0 8
                       (map (project (buildTeamsMap bootstrapData) team)
                          (sort byEvent
                             (filter (fun f =>
                                        participates team f
                                        && ((1 <=? toNumber (Fixture.event f))
                                            && (toNumber (Fixture.event f) <=? 9)))
                                     fixturesData))))).
  { intros id team Hin Huniq. unfold teamFixtures.
    rewrite getNextFixtures_fold.
    rewrite (get_fold_set_present
               (fun e : key * Team.t => KStr (Team.short_name (snd e)))
               (fun e => projection fixturesData 1 (buildTeamsMap bootstrapData)
                           (snd e))
               (KStr (Team.short_name team))
               (projection fixturesData 1 (buildTeamsMap bootstrapData) team)).
    - unfold projection, qualifying. do 4 f_equal.
      apply filter_ext. intro f. unfold inWindow.
      now rewrite Z.geb_leb.
    - exists (id, team). auto.
    - intros [id' team'] Hin' Hk. simpl in *.
      injection Hk as Hk. now rewrite (Huniq id' team' Hin' Hk). }
  split; [exact Hgw|].
  rewrite Hrun. unfold catch500, tryBlock, bind, all3, fetch, lift, ret.
  rewrite Hb, Ht, Hf, Hgw. cbn [fst snd].
  split; [|split; [|split; [|split]]].
  - rewrite <- !app_assoc. cbn [app].
    destruct (serve_picks up teamId 1); [|reflexivity].
    destruct (analyze _ _ _ _ _); reflexivity.
  - intros picks a Hp Ha. rewrite Hp, Ha. split; [reflexivity|].
    unfold analyze in Ha.
    destruct (mapThrow _ _); [|discriminate]. now injection Ha as <-.
  - intros a Hresp.
    destruct (serve_picks up teamId 1) as [picks|m]; [|discriminate Hresp].
    exists picks. split; [reflexivity|].
    destruct (analyze bootstrapData teamData fixturesData picks 1) as [a'|m]
      eqn:Ha; [|discriminate Hresp].
    cbn [fst] in Hresp. injection Hresp as <-.
    unfold analyze in Ha. fold teamFixtures in Ha.
    destruct (mapThrow (analyzePick (buildPlayersMap bootstrapData) teamFixtures)
                picks) as [squad|] eqn:Esq; [|discriminate Ha].
    injection Ha as <-. repeat split.
  - intros k fixtures p Hget Hin.
    apply (project_window _ _ _ _ _ _ Hget Hin).
  - exact Hproj.
Qed.

Lemma default_gameweek_is_1_witness :
  snd (handler SampleUpstream.get42 SampleWorld.up [])
  = [FPL_API.bootstrap; FPL_API.team "42"; FPL_API.fixtures; FPL_API.picks "42" 1].
Proof.
  refine (proj1 (proj2 (default_gameweek_is_1
                          SampleUpstream.get42 SampleWorld.up [] "42"
                          SampleWorld.bootstrapData SampleWorld.teamData
                          Sample.twoFixtures _ _ _ _ _ _ _))).
  - discriminate.
  - reflexivity.
  - discriminate.
  - reflexivity.
  - reflexivity.
  - reflexivity.
  - simpl. discriminate.
Defined.


(** ** Squad analyzer *)

(** The projection is keyed by short names and the analyzer looks a team up
    by its numeric code: the window of a pick is always empty. *)
Lemma analyzePick_window_empty (allFixtures : list Fixture.t) (currentGW : Z)
    (teamsMap : JsMap.t Team.t) (playersMap : JsMap.t Player.t)
    (pick : Pick.t) (s : Squad.t) :
  analyzePick playersMap (getNextFixtures allFixtures currentGW teamsMap) pick = Ok s ->
  Squad.fixtures s = "" /\ Squad.avgDifficulty s = Dec false 30.
Proof.
  unfold analyzePick, window.
  destruct (JsMap.get (KNum (Pick.element pick)) playersMap) as [player|];
    [|discriminate].
  rewrite getNextFixtures_number_key. intro H. injection H as <-.
  split; reflexivity.
Qed.

(** C1, on a failing input. Saka plays for Arsenal, whose two projected
    fixtures are both rated 2, so the mean is 2; the analyzer reports an
    empty fixture list and the default 3.0 for him. *)
Theorem squad_average_ignores_projection :
  exists a s fixtures,
    analyze SampleWorld.bootstrapData SampleWorld.teamData Sample.twoFixtures
            SampleWorld.picks 1 = Ok a
    /\ nth_error (Analysis.squad a) 0 = Some s
    /\ Squad.name s = "Saka" /\ Squad.team s = "ARS"
    /\ JsMap.get (KStr "ARS") SampleWorld.teamFixtures = Some fixtures
    /\ map Proj.difficulty (slice0 5 fixtures) = [2; 2]
    /\ Num.eqv (averageDifficulty (slice0 5 fixtures)) (ofZ 2)
    /\ Squad.fixtures s = ""
    /\ Squad.avgDifficulty s = toFixed1 (ofZ 3).
Proof.
  do 3 eexists.
  split; [vm_compute; reflexivity|].
  split; [reflexivity|].
  split; [reflexivity|]. split; [reflexivity|].
  split; [vm_compute; reflexivity|].
  split; [reflexivity|].
  split; [vm_compute; reflexivity|].
  split; reflexivity.
Qed.

(** ** Transfer suggester: the pairs *)

Lemma transferOutCandidates_In (squad : list Squad.t) (p : Squad.t) :
  In p (transferOutCandidates squad) -> In p squad /\ isWeak p = true.
Proof.
  unfold transferOutCandidates. intro H.
  apply slice0_In, sort_In_inv, filter_In in H. exact H.
Qed.

Lemma alternatives_In (squad : list Squad.t) (playersMap : JsMap.t Player.t)
    (teamFixtures : teamFixturesMap) (bank : num) (playerOut : Squad.t)
    (c : Candidate.t) :
  In c (alternatives squad playersMap teamFixtures bank playerOut) ->
  exists p,
    c = toCandidate teamFixtures p
    /\ In p (JsMap.values playersMap)
    /\ isAlternative squad bank playerOut p = true.
Proof.
  unfold alternatives. intro H.
  apply slice0_In, sort_In_inv, in_map_iff in H.
  destruct H as [p [<- Hp]]. apply filter_In in Hp.
  exists p. tauto.
Qed.

Lemma pushTransfer_In (squad : list Squad.t) (playersMap : JsMap.t Player.t)
    (teamFixtures : teamFixturesMap) (bank : num)
    (outs : list Squad.t) (transfers : list Transfer.t) (t : Transfer.t) :
  In t (fold_left (pushTransfer squad playersMap teamFixtures bank) outs transfers) ->
  In t transfers
  \/ exists playerOut playerIn,
       In playerOut outs
       /\ In playerIn (alternatives squad playersMap teamFixtures bank playerOut)
       /\ t = mkTransfer playerOut playerIn.
Proof.
  revert transfers. induction outs as [|o outs IH]; intros transfers H; simpl in H.
  - now left.
  - apply IH in H. destruct H as [H|[po [pi [Hpo [Hpi Ht]]]]].
    + unfold pushTransfer in H.
      destruct (alternatives squad playersMap teamFixtures bank o) as [|c cs] eqn:E;
        [now left|].
      apply in_app_or in H. destruct H as [H|[H|[]]]; [now left|].
      right. exists o, c. rewrite E. repeat split; simpl; auto.
    + right. exists po, pi. repeat split; simpl; auto.
Qed.

Lemma inSquad_false (squad : list Squad.t) (p : Player.t) :
  inSquad squad p = false ->
  forall s, In s squad -> Squad.id s <> Player.id p.
Proof.
  unfold inSquad. intros H s Hs.
  destruct (find _ squad) eqn:E; [discriminate|].
  apply (find_none _ _ E) in Hs. now apply Z.eqb_neq.
Qed.

(** C3. Every transfer pair has an incoming player of the pool who is not in
    the squad, costs no more than the outgoing player's price plus the bank,
    plays in the outgoing player's position and has a strictly higher form. *)
Theorem transfer_pairs_are_valid (squad : list Squad.t) (playersMap : JsMap.t Player.t)
    (teamFixtures : teamFixturesMap) (bank : num) (t : Transfer.t) :
  In t (findTransferOpportunities squad playersMap teamFixtures bank) ->
  exists playerOut p,
    t = mkTransfer playerOut (toCandidate teamFixtures p)
    /\ In playerOut squad
    /\ In p (JsMap.values playersMap)
    /\ (forall s, In s squad -> Squad.id s <> Player.id p)
    /\ (Transfer.price (Transfer.playerIn t)
          <=? Transfer.price (Transfer.playerOut t) + bank)%num = true
    /\ Transfer.price (Transfer.playerIn t) = (ofZ (Player.now_cost p) / ofZ 10)%num
    /\ Transfer.price (Transfer.playerOut t) = Squad.price playerOut
    /\ getPosition (Player.element_type p) = Squad.position playerOut
    /\ (Player.form p >? parseFloat1 (Squad.form playerOut))%num = true.
Proof.
  unfold findTransferOpportunities. intro H.
  apply slice0_In, pushTransfer_In in H.
  destruct H as [[]|[playerOut [playerIn [Hout [Hin ->]]]]].
  apply transferOutCandidates_In in Hout. destruct Hout as [Hout _].
  apply alternatives_In in Hin. destruct Hin as [p [-> [Hp Halt]]].
  unfold isAlternative in Halt. rewrite !andb_true_iff in Halt.
  destruct Halt as [[[[Hpos Hprice] Hform] _] Hsq].
  exists playerOut, p. simpl.
  repeat split; auto.
  - apply inSquad_false. now apply negb_true_iff.
  - now apply String.eqb_eq.
Qed.

Lemma transfer_pairs_are_valid_witness :
  let squad := SampleWorld.squadOf [10; 13] in
  let t := SampleWorld.sakaForPalmer in
  In t (findTransferOpportunities squad SampleWorld.playersMap
          SampleWorld.teamFixtures (tenths 10))
  /\ exists playerOut p,
       t = mkTransfer playerOut (toCandidate SampleWorld.teamFixtures p)
       /\ In playerOut squad
       /\ In p (JsMap.values SampleWorld.playersMap)
       /\ (forall s, In s squad -> Squad.id s <> Player.id p)
       /\ (Transfer.price (Transfer.playerIn t)
             <=? Transfer.price (Transfer.playerOut t) + tenths 10)%num = true
       /\ Transfer.price (Transfer.playerIn t) = (ofZ (Player.now_cost p) / ofZ 10)%num
       /\ Transfer.price (Transfer.playerOut t) = Squad.price playerOut
       /\ getPosition (Player.element_type p) = Squad.position playerOut
       /\ (Player.form p >? parseFloat1 (Squad.form playerOut))%num = true.
Proof.
  intros squad t.
  assert (H : In t (findTransferOpportunities squad SampleWorld.playersMap
                      SampleWorld.teamFixtures (tenths 10))).
  { vm_compute. left. reflexivity. }
  split; [exact H|].
  exact (transfer_pairs_are_valid squad SampleWorld.playersMap
           SampleWorld.teamFixtures (tenths 10) t H).
Defined.

(** ** Captaincy ranker *)

Lemma Qlt_bool_ext (a b c d : Q) :
  ((a < b)%Q <-> (c < d)%Q) -> Qlt_bool a b = Qlt_bool c d.
Proof.
  intro H. destruct (Qlt_bool a b) eqn:E1, (Qlt_bool c d) eqn:E2; auto.
  - apply Qlt_bool_iff, H, Qlt_bool_iff in E1. congruence.
  - apply Qlt_bool_iff, H, Qlt_bool_iff in E2. congruence.
Qed.

Lemma after_byCaptainScoreDesc (x y : Captain.cand) :
  hasScore x -> hasScore y ->
  after byCaptainScoreDesc x y = Qlt_bool (scoreRank y) (scoreRank x).
Proof.
  unfold hasScore, after, byCaptainScoreDesc, scoreRank.
  destruct (Captain.captainScore x) as [|qx], (Captain.captainScore y) as [|qy];
    simpl; try discriminate. intros _ _.
  unfold gtb, ltb, cmp2, ofZ, sub, lift2.
  apply Qlt_bool_ext. unfold inject_Z. split; intro; lra.
Qed.

Lemma toCaptainCandidate_hasScore (teamFixtures : teamFixturesMap) (p : Squad.t) :
  Squad.form p <> DecNaN -> hasScore (toCaptainCandidate teamFixtures p).
Proof.
  unfold hasScore, toCaptainCandidate. cbv zeta. cbn [Captain.captainScore].
  destruct (Squad.form p) as [|neg t]; [contradiction|]. intros _.
  destruct (nth_error (window 1 (KStr (Squad.team p)) teamFixtures) 0) as [f|];
    [destruct (Proj.isHome f)|]; reflexivity.
Qed.

Lemma StronglySorted_firstn {A} (R : A -> A -> Prop) (n : nat) (l : list A) :
  StronglySorted R l -> StronglySorted R (firstn n l).
Proof.
  intro H. revert n. induction H as [|x l Hs IH Hx]; intros [|n]; simpl;
    try constructor; auto.
  apply Forall_forall. intros y Hy. rewrite Forall_forall in Hx.
  apply Hx. revert Hy. apply (slice0_In n).
Qed.

Lemma length_mapi_from {A B} (f : A -> nat -> B) (l : list A) (i : nat) :
  List.length (mapi_from i f l) = List.length l.
Proof. revert i. induction l; intro i; simpl; auto. Qed.

Lemma conf_mapi_from (l : list Captain.cand) (i : nat) :
  map Captain.conf (mapi_from i renderCaptain l) = map Captain.confidence l.
Proof. revert i. induction l as [|c l IH]; intro i; simpl; [|rewrite IH]; reflexivity. Qed.

Lemma confidence_bounds (c : Captain.cand) :
  hasScore c -> confidenceFormula c ->
  (Captain.confidence c <=? ofZ 95)%num = true
  /\ ((Captain.captainScore c >=? ofZ 0)%num = true ->
      (Captain.confidence c >=? ofZ 0)%num = true).
Proof.
  unfold hasScore, confidenceFormula. intros Hs ->.
  destruct (Captain.captainScore c) as [|q]; [discriminate|].
  unfold tenths, ofZ, Num.mul, lift2, Num.round, Num.min.
  set (r := Qfloor (q * (12 # 10) + (1 # 2))).
  destruct (Qle_bool (inject_Z 95) (inject_Z r)) eqn:E.
  - split; [reflexivity|]. intros _. reflexivity.
  - split.
    + apply Qle_bool_iff. apply Qlt_le_weak, Qlt_bool_iff.
      unfold Qlt_bool. now rewrite E.
    + intro Hq. apply geb_Fin in Hq. apply geb_Fin.
      rewrite <- Zle_Qle. change 0 with (Qfloor 0). apply Qfloor_resp_le.
      unfold inject_Z in Hq. lra.
Qed.

(** C2, as stated, fails: two members with equal scores are returned one
    after the other, so the order is not strict; a member with a negative
    form gets a negative confidence; and a member whose form is not a number
    gets the confidence [NaN]. *)
Lemma captains_tie_and_negative_confidence :
  (exists c1 c2 c3,
     captainCandidates (SampleWorld.squadOf [13; 14; 15; 10]) SampleWorld.teamFixtures
     = [c1; c2; c3]
     /\ Squad.name (Captain.player c2) = "Odegaard"
     /\ Squad.name (Captain.player c3) = "Rice"
     /\ (Captain.captainScore c3 <? Captain.captainScore c2)%num = false)
  /\ (exists r,
        getCaptainRecommendations (SampleWorld.squadOf [16]) SampleWorld.teamFixtures
        = [r]
        /\ (Captain.conf r <? ofZ 0)%num = true)
  /\ (exists r,
        getCaptainRecommendations (SampleWorld.squadOf [17]) SampleWorld.teamFixtures
        = [r]
        /\ Captain.conf r = NaN).
Proof.
  split; [|split].
  - do 3 eexists. split; [vm_compute; reflexivity|]. repeat split.
  - eexists. split; [vm_compute; reflexivity|]. reflexivity.
  - eexists. split; [vm_compute; reflexivity|]. reflexivity.
Qed.

(** C2 (amended). For every squad the ranker returns exactly
    min(3, squad size) entries, and each returned confidence is
    min(95, round(score * 1.2)); a confidence whose score is a number is at
    most 95, and at least 0 when the score is not negative. When the forms
    of the squad are numbers, every score is a number and the entries are in
    descending order of captain score, ties allowed. *)
Theorem captain_ranking (squad : list Squad.t) (teamFixtures : teamFixturesMap) :
  let cands := captainCandidates squad teamFixtures in
  List.length (getCaptainRecommendations squad teamFixtures)
  = Nat.min 3 (List.length squad)
  /\ map Captain.conf (getCaptainRecommendations squad teamFixtures)
     = map Captain.confidence cands
  /\ Forall (fun c =>
               confidenceFormula c
               /\ (hasScore c ->
                   (Captain.confidence c <=? ofZ 95)%num = true
                   /\ ((Captain.captainScore c >=? ofZ 0)%num = true ->
                       (Captain.confidence c >=? ofZ 0)%num = true)))
            cands
  /\ (Forall (fun p => Squad.form p <> DecNaN) squad ->
      Forall hasScore cands /\ StronglySorted descendingScore cands).
Proof.
  intro cands.
  assert (Hin : forall c, In c cands ->
                  In c (map (toCaptainCandidate teamFixtures) squad)).
  { intros c Hc. unfold cands, captainCandidates in Hc.
    apply slice0_In, sort_In_inv in Hc. exact Hc. }
  split; [|split; [|split]].
  - unfold getCaptainRecommendations, mapi. rewrite length_mapi_from.
    unfold captainCandidates, slice0.
    now rewrite length_firstn, sort_length, length_map.
  - apply conf_mapi_from.
  - apply Forall_forall. intros c Hc.
    assert (Hf : confidenceFormula c).
    { apply Hin, in_map_iff in Hc. destruct Hc as [p [<- _]]. reflexivity. }
    split; [exact Hf|]. intro Hs. now apply confidence_bounds.
  - intro Hforms.
    assert (Hall : Forall hasScore (map (toCaptainCandidate teamFixtures) squad)).
    { apply Forall_forall. intros c Hc. apply in_map_iff in Hc.
      destruct Hc as [p [<- Hp]]. apply toCaptainCandidate_hasScore.
      rewrite Forall_forall in Hforms. auto. }
    assert (Hc : Forall hasScore cands).
    { apply Forall_forall. intros c Hc. rewrite Forall_forall in Hall. auto. }
    split; [exact Hc|].
    assert (Hs : StronglySorted (rank_le scoreRank) cands).
    { apply StronglySorted_firstn.
      apply (sort_sorted byCaptainScoreDesc scoreRank hasScore);
        auto using after_byCaptainScoreDesc. }
    clear Hin. induction Hs as [|a l Hs IH Ha]; constructor.
    + apply IH. now inversion Hc.
    + inversion Hc as [|? ? Hsa Hsl]; subst.
      rewrite Forall_forall in *. intros b Hb.
      specialize (Ha b Hb). specialize (Hsl b Hb).
      unfold rank_le, scoreRank, descendingScore, hasScore in *.
      destruct (Captain.captainScore a), (Captain.captainScore b);
        try discriminate. apply Qle_bool_iff. lra.
Qed.

Lemma captain_ranking_witness :
  StronglySorted descendingScore
    (captainCandidates (SampleWorld.squadOf [10; 13; 14; 15])
       SampleWorld.teamFixtures).
Proof.
  refine (proj2 (proj2 (proj2 (proj2 (captain_ranking
                   (SampleWorld.squadOf [10; 13; 14; 15])
                   SampleWorld.teamFixtures))) _)).
  vm_compute. repeat constructor; discriminate.
Defined.

(** The scenario of the specification: form 1.0 out, form 6.0 in, for a
    projected gain of (6.0 - 1.0) * 5 = 25.0 and a refund of 0.5. *)
Example saka_for_palmer :
  findTransferOpportunities (SampleWorld.squadOf [10; 13])
    SampleWorld.playersMap SampleWorld.teamFixtures (tenths 10)
  = [SampleWorld.sakaForPalmer]
  /\ dec1_to_string (Transfer.projectedPoints SampleWorld.sakaForPalmer) = "25.0"
  /\ dec1_to_string (Transfer.cost SampleWorld.sakaForPalmer) = "-0.5".
Proof. vm_compute. repeat split. Qed.

(** Three weak midfielders each find a replacement; two pairs are returned. *)
Example three_pairs_two_returned :
  let squad := SampleWorld.squadOf [10; 14; 15] in
  List.length (transferOutCandidates squad) = 3%nat
  /\ List.length
       (fold_left (pushTransfer squad SampleWorld.playersMap
                     SampleWorld.teamFixtures (tenths 10))
                  (transferOutCandidates squad) []) = 3%nat
  /\ List.length
       (findTransferOpportunities squad SampleWorld.playersMap
          SampleWorld.teamFixtures (tenths 10)) = 2%nat.
Proof. vm_compute. repeat split. Qed.

(** * Further properties of the analyzer *)

(** ** The handler as a whole *)

Lemma analyze_currentGW (bootstrapData : Bootstrap.t) (teamData : Entry.t)
    (fixturesData : list Fixture.t) (picks : list Pick.t) (gw : Z) (a : Analysis.t) :
  analyze bootstrapData teamData fixturesData picks gw = Ok a ->
  Analysis.currentGW a = gw.
Proof.
  unfold analyze. destruct (mapThrow _ picks); [|discriminate].
  intro H. now injection H as <-.
Qed.

(** What a run with a usable identifier does, by the four upstream answers. *)
Lemma tryBlock_run (teamId : string) (up : Upstream) (sent : list FPL_API.url) :
  catch500 (tryBlock teamId) up sent
  = match serve_bootstrap up, serve_team up teamId, serve_fixtures up with
    | Ok b, Ok td, Ok fx =>
        let gw := currentGameweek b in
        (Ok match serve_picks up teamId gw with
            | Ok picks =>
                match analyze b td fx picks gw with
                | Ok a => {| Response.statusCode := 200;
                             Response.headers := headers;
                             Response.body_ := AnalysisObject a |}
                | Throw m => failure500 m
                end
            | Throw m => failure500 m
            end,
         (sent ++ requestPlan teamId gw)%list)
    | Throw m, _, _ | Ok _, Throw m, _ | Ok _, Ok _, Throw m =>
        (Ok (failure500 m), (sent ++ firstn 3 (requestPlan teamId 0))%list)
    end.
Proof.
  unfold catch500, tryBlock, bind, all3, fetch, lift, ret, requestPlan.
  destruct (serve_bootstrap up) as [b|m1], (serve_team up teamId) as [td|m2],
    (serve_fixtures up) as [fx|m3]; simpl; rewrite <- ?app_assoc; simpl;
    try reflexivity.
  destruct (serve_picks up teamId (currentGameweek b)) as [picks|m4]; simpl;
    [|reflexivity].
  destruct (analyze b td fx picks (currentGameweek b)); reflexivity.
Qed.

Lemma handler_run (event : Request.t) (teamId : string) :
  Request.httpMethod event <> "OPTIONS" ->
  teamIdOf event = Some teamId -> teamId <> "" ->
  handler event = catch500 (tryBlock teamId).
Proof.
  intros Hm Hid Hne. unfold handler.
  rewrite (method_eqb_false _ Hm), Hid.
  destruct teamId; [contradiction|reflexivity].
Qed.

(** X1. The handler never throws and never answers without the CORS
    headers. Its answer is one of: 200 with an empty body and no request
    (preflight); 400 with the single member "error" and no request; 500 with
    the members "error" and "message" after the first three or all four
    requests; 200 with the analysis after all four requests, the picks being
    those of the gameweek reported in the body. *)
Theorem handler_answers (event : Request.t) (up : Upstream)
    (sent : list FPL_API.url) :
  exists r extra,
    handler event up sent = (Ok r, (sent ++ extra)%list)
    /\ Response.headers r = headers
    /\ match Response.body_ r with
       | Empty =>
           Response.statusCode r = 200 /\ extra = []
           /\ Request.httpMethod event = "OPTIONS"
       | Object members =>
           (Response.statusCode r = 400 /\ extra = []
            /\ members = [("error", "Team ID is required")])
           \/ (Response.statusCode r = 500
               /\ (exists m, members
                             = [("error", "Failed to analyze team"); ("message", m)])
               /\ exists teamId gw,
                    teamIdOf event = Some teamId
                    /\ (extra = firstn 3 (requestPlan teamId gw)
                        \/ extra = requestPlan teamId gw))
       | AnalysisObject a =>
           Response.statusCode r = 200
           /\ exists teamId,
                teamIdOf event = Some teamId
                /\ extra = requestPlan teamId (Analysis.currentGW a)
       end.
Proof.
  destruct (String.eqb (Request.httpMethod event) "OPTIONS") eqn:Em.
  - exists {| Response.statusCode := 200; Response.headers := headers;
              Response.body_ := Empty |}, [].
    unfold handler. rewrite Em, app_nil_r. apply String.eqb_eq in Em.
    repeat split; auto.
  - assert (Hm : Request.httpMethod event <> "OPTIONS") by now apply String.eqb_neq.
    destruct (teamIdOf event) as [teamId|] eqn:Eid;
      [destruct (String.eqb teamId "") eqn:Ee|].
    + apply String.eqb_eq in Ee. subst teamId.
      do 2 eexists. unfold handler. rewrite Em, Eid. unfold catch500, ret.
      split; [now rewrite app_nil_r|]. simpl. split; [reflexivity|]. left. auto.
    + apply String.eqb_neq in Ee.
      rewrite (handler_run event teamId Hm Eid Ee), tryBlock_run.
      destruct (serve_bootstrap up) as [b|m1];
        [destruct (serve_team up teamId) as [td|m2];
         [destruct (serve_fixtures up) as [fx|m3]|]|].
      * cbv zeta.
        destruct (serve_picks up teamId (currentGameweek b)) as [picks|m4];
          [destruct (analyze b td fx picks (currentGameweek b)) as [a|m5] eqn:Ea|].
        -- do 2 eexists. split; [reflexivity|]. simpl. split; [reflexivity|].
           split; [reflexivity|]. exists teamId.
           now rewrite (analyze_currentGW _ _ _ _ _ _ Ea).
        -- do 2 eexists. split; [reflexivity|]. simpl. split; [reflexivity|].
           right. repeat split; eauto.
        -- do 2 eexists. split; [reflexivity|]. simpl. split; [reflexivity|].
           right. repeat split; eauto.
      * do 2 eexists. split; [reflexivity|]. simpl. split; [reflexivity|].
        right. split; [reflexivity|]. split; [eauto|].
        exists teamId, 0. split; auto.
      * do 2 eexists. split; [reflexivity|]. simpl. split; [reflexivity|].
        right. split; [reflexivity|]. split; [eauto|].
        exists teamId, 0. split; auto.
      * do 2 eexists. split; [reflexivity|]. simpl. split; [reflexivity|].
        right. split; [reflexivity|]. split; [eauto|].
        exists teamId, 0. split; auto.
    + do 2 eexists. unfold handler. rewrite Em, Eid. unfold catch500, ret.
      split; [now rewrite app_nil_r|]. simpl. split; [reflexivity|]. left. auto.
Qed.

Lemma get_fold_set_some {E V} (keyOf : E -> key) (valOf : E -> V)
    (k : key) (l : list E) (m : JsMap.t V) :
  (exists e, In e l /\ keyOf e = k) ->
  exists e, In e l /\ keyOf e = k
            /\ JsMap.get k (fold_left (setEntry keyOf valOf) l m) = Some (valOf e).
Proof.
  revert m. induction l as [|e l IH] using rev_ind; intros m [e0 [Hin Hk]].
  - destruct Hin.
  - rewrite fold_left_app. simpl. unfold setEntry at 1.
    destruct (key_eqb (keyOf e) k) eqn:Ek.
    + apply key_eqb_eq in Ek. exists e. rewrite Ek, get_set_same.
      repeat split; auto. apply in_or_app. right. now left.
    + assert (Hne : keyOf e <> k).
      { intro Heq. rewrite Heq, key_eqb_refl in Ek. discriminate. }
      rewrite get_set_other by exact Hne.
      apply in_app_or in Hin. destruct Hin as [Hin|[Hin|[]]];
        [|subst e0; contradiction].
      destruct (IH m (ex_intro _ e0 (conj Hin Hk))) as [e1 [H1 [H2 H3]]].
      exists e1. repeat split; auto. apply in_or_app. now left.
Qed.

(** ** Lookup builders *)

Lemma buildPlayersMap_fold (bootstrapData : Bootstrap.t) :
  buildPlayersMap bootstrapData
  = fold_left (setEntry (fun e => KNum (Element.id e)) (playerOf bootstrapData))
              (Bootstrap.elements bootstrapData) JsMap.empty.
Proof. reflexivity. Qed.

Lemma buildTeamsMap_fold (bootstrapData : Bootstrap.t) :
  buildTeamsMap bootstrapData
  = fold_left (setEntry (fun t => KNum (Team.id t)) (fun t => t))
              (Bootstrap.teams bootstrapData) JsMap.empty.
Proof. reflexivity. Qed.

Lemma playersMap_get_inv (bootstrapData : Bootstrap.t) (id : Z) (p : Player.t) :
  JsMap.get (KNum id) (buildPlayersMap bootstrapData) = Some p ->
  exists e, In e (Bootstrap.elements bootstrapData)
            /\ Element.id e = id /\ p = playerOf bootstrapData e.
Proof.
  rewrite buildPlayersMap_fold. intro H. apply get_fold_set_inv in H.
  destruct H as [H|[e [Hin [Hk Hv]]]]; [discriminate|].
  exists e. injection Hk as Hk. auto.
Qed.

Lemma playersMap_get_none (bootstrapData : Bootstrap.t) (id : Z) :
  JsMap.get (KNum id) (buildPlayersMap bootstrapData) = None <->
  forall e, In e (Bootstrap.elements bootstrapData) -> Element.id e <> id.
Proof.
  rewrite buildPlayersMap_fold. split.
  - intros H e Hin Hid.
    destruct (get_fold_set_some (fun e => KNum (Element.id e))
                (playerOf bootstrapData) (KNum id)
                (Bootstrap.elements bootstrapData) JsMap.empty)
      as [e1 [_ [_ H1]]].
    { exists e. split; auto. now rewrite Hid. }
    congruence.
  - intro H. rewrite get_fold_set_absent; [reflexivity|].
    intros e Hin Hk. injection Hk as Hk. exact (H e Hin Hk).
Qed.

(** X2. [playersMap] answers exactly for the ids of the catalogue: an id
    without an element is not found, and what is found under an id is an
    element with that id, its team replaced by the short name of the club
    (or "UNK"). When the element is the only one with its id it is the one
    found. *)
Theorem playersMap_lookup (bootstrapData : Bootstrap.t) (id : Z) :
  (JsMap.get (KNum id) (buildPlayersMap bootstrapData) = None <->
   forall e, In e (Bootstrap.elements bootstrapData) -> Element.id e <> id)
  /\ (forall p,
        JsMap.get (KNum id) (buildPlayersMap bootstrapData) = Some p ->
        exists e, In e (Bootstrap.elements bootstrapData)
                  /\ Element.id e = id /\ p = playerOf bootstrapData e)
  /\ (forall e,
        In e (Bootstrap.elements bootstrapData) -> Element.id e = id ->
        (forall e', In e' (Bootstrap.elements bootstrapData) ->
                    Element.id e' = id -> e' = e) ->
        JsMap.get (KNum id) (buildPlayersMap bootstrapData)
        = Some (playerOf bootstrapData e)).
Proof.
  split; [apply playersMap_get_none|]. split; [apply playersMap_get_inv|].
  intros e Hin Hid Huniq. rewrite buildPlayersMap_fold.
  apply get_fold_set_present.
  - exists e. split; auto. now rewrite Hid.
  - intros e' Hin' Hk. injection Hk as Hk. now rewrite (Huniq e' Hin' Hk).
Qed.

Lemma playersMap_lookup_witness :
  JsMap.get (KNum 11) (buildPlayersMap SampleWorld.bootstrapData)
  = Some (playerOf SampleWorld.bootstrapData SampleWorld.palmer).
Proof.
  refine (proj2 (proj2 (playersMap_lookup SampleWorld.bootstrapData 11))
            SampleWorld.palmer _ _ _).
  - simpl. right. left. reflexivity.
  - reflexivity.
  - intros e' Hin Hid. simpl in Hin.
    repeat (destruct Hin as [<-|Hin]; [first [reflexivity | discriminate Hid]|]).
    destruct Hin.
Defined.

(** X3. [teamsMap] finds under the id of a team of the catalogue a team with
    that id (the team itself when no other has its id), and nothing under an
    id no team has. *)
Theorem teamsMap_lookup (bootstrapData : Bootstrap.t) (id : Z) :
  (JsMap.get (KNum id) (buildTeamsMap bootstrapData) = None <->
   forall t, In t (Bootstrap.teams bootstrapData) -> Team.id t <> id)
  /\ (forall t,
        JsMap.get (KNum id) (buildTeamsMap bootstrapData) = Some t ->
        In t (Bootstrap.teams bootstrapData) /\ Team.id t = id)
  /\ (forall t,
        In t (Bootstrap.teams bootstrapData) -> Team.id t = id ->
        (forall t', In t' (Bootstrap.teams bootstrapData) ->
                    Team.id t' = id -> t' = t) ->
        JsMap.get (KNum id) (buildTeamsMap bootstrapData) = Some t).
Proof.
  rewrite buildTeamsMap_fold. split; [|split].
  - split.
    + intros H t Hin Hid.
      destruct (get_fold_set_some (fun t => KNum (Team.id t)) (fun t => t)
                  (KNum id) (Bootstrap.teams bootstrapData) JsMap.empty)
        as [t1 [_ [_ H1]]].
      { exists t. split; auto. now rewrite Hid. }
      congruence.
    + intro H. rewrite get_fold_set_absent; [reflexivity|].
      intros t Hin Hk. injection Hk as Hk. exact (H t Hin Hk).
  - intros t H. apply get_fold_set_inv in H.
    destruct H as [H|[t' [Hin [Hk Hv]]]]; [discriminate|].
    injection Hk as Hk. subst t'. auto.
  - intros t Hin Hid Huniq.
    apply (get_fold_set_present (fun t => KNum (Team.id t)) (fun t => t)).
    + exists t. split; auto. now rewrite Hid.
    + intros t' Hin' Hk. injection Hk as Hk. exact (Huniq t' Hin' Hk).
Qed.

Lemma teamsMap_lookup_witness :
  JsMap.get (KNum 2) (buildTeamsMap SampleWorld.bootstrapData) = Some Sample.CHE.
Proof.
  refine (proj2 (proj2 (teamsMap_lookup SampleWorld.bootstrapData 2))
            Sample.CHE _ _ _).
  - simpl. right. left. reflexivity.
  - reflexivity.
  - intros t' Hin Hid. simpl in Hin.
    repeat (destruct Hin as [<-|Hin]; [first [reflexivity | discriminate Hid]|]).
    destruct Hin.
Defined.

(** ** Squad analyzer and the phases of a run *)

Lemma mapThrow_Ok {A B} (f : A -> outcome B) (l : list A) :
  (forall x, In x l -> exists y, f x = Ok y) ->
  exists ys, mapThrow f l = Ok ys /\ Forall2 (fun x y => f x = Ok y) l ys.
Proof.
  induction l as [|x l IH]; intro H; simpl.
  - exists []. split; [reflexivity|constructor].
  - destruct (H x (or_introl eq_refl)) as [y Hy].
    destruct IH as [ys [Hys HF]]; [intros; apply H; now right|].
    exists (y :: ys). rewrite Hy, Hys. split; [reflexivity|now constructor].
Qed.

Lemma mapThrow_Throw {A B} (f : A -> outcome B) (l : list A) (m : string) :
  (forall x m', f x = Throw m' -> m' = m) ->
  (exists x, In x l /\ f x = Throw m) ->
  mapThrow f l = Throw m.
Proof.
  intros Hm. induction l as [|x l IH]; intros [x0 [Hin Hx0]]; simpl.
  - destruct Hin.
  - destruct (f x) as [y|m'] eqn:E.
    + destruct Hin as [->|Hin]; [congruence|].
      rewrite IH; eauto.
    + now rewrite (Hm x m' E).
Qed.

Lemma analyzePick_Throw (playersMap : JsMap.t Player.t)
    (teamFixtures : teamFixturesMap) (pick : Pick.t) (m : string) :
  analyzePick playersMap teamFixtures pick = Throw m -> m = typeErrorText.
Proof.
  unfold analyzePick. destruct (JsMap.get _ playersMap); [discriminate|].
  intro H. now injection H.
Qed.

(** X4. A pick whose element is not in the catalogue makes the analysis
    throw the TypeError of reading [team_code] of [undefined]; the handler
    then answers 500 with that message, after all four requests. *)
Theorem unknown_pick_is_500 (event : Request.t) (up : Upstream)
    (sent : list FPL_API.url) (teamId : string)
    (bootstrapData : Bootstrap.t) (teamData : Entry.t)
    (fixturesData : list Fixture.t) (picks : list Pick.t) (pick : Pick.t) :
  Request.httpMethod event <> "OPTIONS" ->
  teamIdOf event = Some teamId -> teamId <> "" ->
  serve_bootstrap up = Ok bootstrapData ->
  serve_team up teamId = Ok teamData ->
  serve_fixtures up = Ok fixturesData ->
  serve_picks up teamId (currentGameweek bootstrapData) = Ok picks ->
  In pick picks ->
  (forall e, In e (Bootstrap.elements bootstrapData) ->
             Element.id e <> Pick.element pick) ->
  analyze bootstrapData teamData fixturesData picks (currentGameweek bootstrapData)
  = Throw typeErrorText
  /\ handler event up sent
     = (Ok (failure500 typeErrorText),
        (sent ++ requestPlan teamId (currentGameweek bootstrapData))%list).
Proof.
  intros Hm Hid Hne Hb Ht Hf Hp Hin Hunknown.
  assert (Ha : analyze bootstrapData teamData fixturesData picks
                 (currentGameweek bootstrapData) = Throw typeErrorText).
  { unfold analyze. rewrite (mapThrow_Throw _ picks typeErrorText).
    - reflexivity.
    - intros x m'. apply analyzePick_Throw.
    - exists pick. split; auto. unfold analyzePick.
      now rewrite (proj2 (playersMap_get_none bootstrapData (Pick.element pick))
                     Hunknown). }
  split; [exact Ha|].
  rewrite (handler_run event teamId Hm Hid Hne), tryBlock_run, Hb, Ht, Hf.
  cbv zeta. now rewrite Hp, Ha.
Qed.

Lemma unknown_pick_is_500_witness :
  handler SampleUpstream.get42 SampleExtra.strangerUp []
  = (Ok (failure500 typeErrorText), requestPlan "42" 1).
Proof.
  refine (proj2 (unknown_pick_is_500 SampleUpstream.get42 SampleExtra.strangerUp []
                   "42" SampleWorld.bootstrapData SampleWorld.teamData
                   Sample.twoFixtures SampleExtra.strangerPicks (SampleWorld.pick 99)
                   _ _ _ _ _ _ _ _ _)); try reflexivity; try discriminate.
  - simpl. right. left. reflexivity.
  - intros e Hin. simpl in Hin.
    repeat (destruct Hin as [<-|Hin]; [discriminate|]). destruct Hin.
Defined.

(** X5. When at least one of the three parallel requests is rejected the
    handler answers 500 with the message of a rejected one of them (so with
    the message of the rejected one when there is only one); all three
    requests have been sent and the picks are never requested. *)
Theorem first_batch_rejection_is_500 (event : Request.t) (up : Upstream)
    (sent : list FPL_API.url) (teamId : string) :
  Request.httpMethod event <> "OPTIONS" ->
  teamIdOf event = Some teamId -> teamId <> "" ->
  (exists m, serve_bootstrap up = Throw m)
  \/ (exists m, serve_team up teamId = Throw m)
  \/ (exists m, serve_fixtures up = Throw m) ->
  exists m,
    handler event up sent
    = (Ok (failure500 m),
       (sent ++ [FPL_API.bootstrap; FPL_API.team teamId; FPL_API.fixtures])%list)
    /\ (serve_bootstrap up = Throw m
        \/ serve_team up teamId = Throw m
        \/ serve_fixtures up = Throw m).
Proof.
  intros Hm Hid Hne H.
  rewrite (handler_run event teamId Hm Hid Hne), tryBlock_run.
  destruct (serve_bootstrap up) as [b|m1] eqn:Eb;
    [destruct (serve_team up teamId) as [td|m2] eqn:Et;
     [destruct (serve_fixtures up) as [fx|m3] eqn:Ef|]|].
  - exfalso. destruct H as [[m H]|[[m H]|[m H]]]; discriminate H.
  - exists m3. split; [reflexivity|]. right. right. reflexivity.
  - exists m2. split; [reflexivity|]. right. left. reflexivity.
  - exists m1. split; [reflexivity|]. left. reflexivity.
Qed.

Lemma first_batch_rejection_is_500_witness :
  exists m,
    handler SampleUpstream.get42 SampleExtra.entryDownUp []
    = (Ok (failure500 m),
       [FPL_API.bootstrap; FPL_API.team "42"; FPL_API.fixtures])
    /\ (serve_bootstrap SampleExtra.entryDownUp = Throw m
        \/ serve_team SampleExtra.entryDownUp "42" = Throw m
        \/ serve_fixtures SampleExtra.entryDownUp = Throw m).
Proof.
  apply (first_batch_rejection_is_500 SampleUpstream.get42 SampleExtra.entryDownUp
           [] "42").
  - discriminate.
  - reflexivity.
  - discriminate.
  - right. left. eexists. reflexivity.
Defined.

(** X6. When the picks request is rejected the handler answers 500 with the
    message of the rejection; it was the fourth request, and it asked for
    the gameweek the catalogue marks current. *)
Theorem picks_rejection_is_500 (event : Request.t) (up : Upstream)
    (sent : list FPL_API.url) (teamId m : string)
    (bootstrapData : Bootstrap.t) (teamData : Entry.t)
    (fixturesData : list Fixture.t) :
  Request.httpMethod event <> "OPTIONS" ->
  teamIdOf event = Some teamId -> teamId <> "" ->
  serve_bootstrap up = Ok bootstrapData ->
  serve_team up teamId = Ok teamData ->
  serve_fixtures up = Ok fixturesData ->
  serve_picks up teamId (currentGameweek bootstrapData) = Throw m ->
  handler event up sent
  = (Ok (failure500 m),
     (sent ++ requestPlan teamId (currentGameweek bootstrapData))%list).
Proof.
  intros Hm Hid Hne Hb Ht Hf Hp.
  rewrite (handler_run event teamId Hm Hid Hne), tryBlock_run, Hb, Ht, Hf.
  cbv zeta. now rewrite Hp.
Qed.

Lemma picks_rejection_is_500_witness :
  handler SampleUpstream.get42 SampleExtra.picksDownUp []
  = (Ok (failure500 "picks unavailable"), requestPlan "42" 1).
Proof.
  apply (picks_rejection_is_500 SampleUpstream.get42 SampleExtra.picksDownUp
           [] "42" "picks unavailable" SampleWorld.bootstrapData
           SampleWorld.teamData Sample.twoFixtures);
    first [ reflexivity | discriminate ].
Defined.

Lemma analyzePick_Ok (playersMap : JsMap.t Player.t)
    (teamFixtures : teamFixturesMap) (pick : Pick.t) (s : Squad.t) :
  analyzePick playersMap teamFixtures pick = Ok s ->
  exists player,
    JsMap.get (KNum (Pick.element pick)) playersMap = Some player
    /\ Squad.id s = Player.id player
    /\ Squad.name s = Player.web_name player
    /\ Squad.team s = Player.team player
    /\ Squad.position s = getPosition (Player.element_type player)
    /\ Squad.price s = (ofZ (Player.now_cost player) / ofZ 10)%num
    /\ Squad.form s = toFixed1 (Player.form player)
    /\ Squad.isCaptain s = Pick.is_captain pick
    /\ Squad.isViceCaptain s = Pick.is_vice_captain pick.
Proof.
  unfold analyzePick.
  destruct (JsMap.get (KNum (Pick.element pick)) playersMap) as [player|];
    [|discriminate].
  intro H. injection H as <-. exists player. repeat split.
Qed.

Lemma mapThrow_Forall2 {A B} (f : A -> outcome B) (l : list A) (ys : list B) :
  mapThrow f l = Ok ys -> Forall2 (fun x y => f x = Ok y) l ys.
Proof.
  revert ys. induction l as [|x l IH]; intros ys H; simpl in H.
  - injection H as <-. constructor.
  - destruct (f x) as [y|] eqn:E; [|discriminate].
    destruct (mapThrow f l) as [ys'|]; [|discriminate].
    injection H as <-. constructor; auto.
Qed.

Lemma Forall2_In_left {A B} (R : A -> B -> Prop) (l : list A) (l' : list B) (x : A) :
  Forall2 R l l' -> In x l -> exists y, In y l' /\ R x y.
Proof.
  induction 1 as [|a b l l' Hab _ IH]; intros Hin; [destruct Hin|].
  destruct Hin as [->|Hin].
  - exists b. split; [now left|exact Hab].
  - destruct (IH Hin) as [y [Hy HR]]. exists y. split; [now right|exact HR].
Qed.

(** X7. The analysis succeeds exactly when every pick names an element of
    the catalogue. The squad then has one entry per pick, in the order of
    the picks; each entry carries the id of its pick, the captain flags of
    the pick, and the name, short team name, position label, price and form
    of a catalogue element with that id. *)
Theorem analyze_squad (bootstrapData : Bootstrap.t) (teamData : Entry.t)
    (fixturesData : list Fixture.t) (picks : list Pick.t) (gw : Z) :
  ((exists a, analyze bootstrapData teamData fixturesData picks gw = Ok a) <->
   forall pick, In pick picks ->
     exists e, In e (Bootstrap.elements bootstrapData)
               /\ Element.id e = Pick.element pick)
  /\ forall a,
       analyze bootstrapData teamData fixturesData picks gw = Ok a ->
       Forall2 (entryFor bootstrapData) picks (Analysis.squad a)
       /\ map Squad.id (Analysis.squad a) = map Pick.element picks.
Proof.
  assert (Hshape : forall a,
             analyze bootstrapData teamData fixturesData picks gw = Ok a ->
             Forall2 (entryFor bootstrapData) picks (Analysis.squad a)).
  { intros a Ha. unfold analyze in Ha.
    destruct (mapThrow _ picks) as [squad|] eqn:E; [|discriminate].
    injection Ha as <-. simpl. apply mapThrow_Forall2 in E.
    eapply Forall2_impl; [|exact E].
    intros pick s Hs. apply analyzePick_Ok in Hs.
    destruct Hs as [player [Hget Hs]].
    apply playersMap_get_inv in Hget. destruct Hget as [e [Hin [Hid ->]]].
    exists e. unfold Player.id, Player.web_name, Player.element_type,
                Player.now_cost, Player.form in Hs. simpl in Hs.
    rewrite Hid in Hs. tauto. }
  split; [split|].
  - intros [a Ha] pick Hin. specialize (Hshape a Ha).
    destruct (Forall2_In_left _ _ _ _ Hshape Hin) as [s [_ [e He]]].
    exists e. tauto.
  - intro Hall. unfold analyze.
    destruct (mapThrow_Ok (analyzePick (buildPlayersMap bootstrapData)
                (getNextFixtures fixturesData gw (buildTeamsMap bootstrapData)))
                picks) as [squad [-> _]]; [|eexists; reflexivity].
    intros pick Hin. destruct (Hall pick Hin) as [e [He Hid]].
    unfold analyzePick.
    destruct (JsMap.get (KNum (Pick.element pick)) (buildPlayersMap bootstrapData))
      eqn:E; [eexists; reflexivity|].
    exfalso. exact (proj1 (playersMap_get_none _ _) E e He Hid).
  - intros a Ha. split; [now apply Hshape|].
    specialize (Hshape a Ha). clear Ha.
    induction Hshape as [|pick s l l' [e He] _ IH];
      simpl; [reflexivity|]. f_equal; [tauto|exact IH].
Qed.

Lemma analyze_squad_witness :
  exists a,
    analyze SampleWorld.bootstrapData SampleWorld.teamData Sample.twoFixtures
            SampleWorld.picks 1 = Ok a.
Proof.
  apply (proj2 (proj1 (analyze_squad SampleWorld.bootstrapData SampleWorld.teamData
                         Sample.twoFixtures SampleWorld.picks 1))).
  intros pick Hin. simpl in Hin. destruct Hin as [<-|[<-|[]]].
  - exists SampleWorld.saka. split; [simpl; tauto|reflexivity].
  - exists SampleWorld.raya. split; [simpl; tauto|reflexivity].
Defined.

Lemma mapThrow_length {A B} (f : A -> outcome B) (l : list A) (ys : list B) :
  mapThrow f l = Ok ys -> List.length ys = List.length l.
Proof.
  intro H. apply mapThrow_Forall2 in H.
  induction H; simpl; auto.
Qed.

Lemma getCaptainRecommendations_length (squad : list Squad.t)
    (teamFixtures : teamFixturesMap) :
  List.length (getCaptainRecommendations squad teamFixtures)
  = Nat.min 3 (List.length squad).
Proof.
  unfold getCaptainRecommendations, mapi. rewrite length_mapi_from.
  unfold captainCandidates, slice0.
  now rewrite length_firstn, sort_length, length_map.
Qed.

(** X8. A run in which the four requests are answered and every pick is in
    the catalogue is answered 200 with the analysis. The picks were asked
    for the current gameweek, which the body reports; the body carries the
    manager's name and rank fields, team value and bank in units with one
    decimal, one squad entry per pick, at most 2 transfers, min(3, picks)
    captains and at least one insight. *)
Theorem successful_run (event : Request.t) (up : Upstream)
    (sent : list FPL_API.url) (teamId : string)
    (bootstrapData : Bootstrap.t) (teamData : Entry.t)
    (fixturesData : list Fixture.t) (picks : list Pick.t) :
  Request.httpMethod event <> "OPTIONS" ->
  teamIdOf event = Some teamId -> teamId <> "" ->
  serve_bootstrap up = Ok bootstrapData ->
  serve_team up teamId = Ok teamData ->
  serve_fixtures up = Ok fixturesData ->
  serve_picks up teamId (currentGameweek bootstrapData) = Ok picks ->
  (forall pick, In pick picks ->
     exists e, In e (Bootstrap.elements bootstrapData)
               /\ Element.id e = Pick.element pick) ->
  exists a,
    handler event up sent
    = (Ok {| Response.statusCode := 200;
             Response.headers := headers;
             Response.body_ := AnalysisObject a |},
       (sent ++ requestPlan teamId (currentGameweek bootstrapData))%list)
    /\ Analysis.currentGW a = currentGameweek bootstrapData
    /\ Analysis.teamName a
       = Entry.player_first_name teamData ++ " " ++ Entry.player_last_name teamData
    /\ Analysis.teamValue a
       = toFixed1 (ofZ (Entry.last_deadline_value teamData) / ofZ 10)%num
    /\ Analysis.bank a
       = toFixed1 (ofZ (Entry.last_deadline_bank teamData) / ofZ 10)%num
    /\ Analysis.overallRank a = Entry.summary_overall_rank teamData
    /\ Analysis.gameweekRank a = Entry.summary_event_rank teamData
    /\ Analysis.totalPoints a = Entry.summary_overall_points teamData
    /\ List.length (Analysis.squad a) = List.length picks
    /\ (List.length (Analysis.transfers a) <= 2)%nat
    /\ List.length (Analysis.captains a) = Nat.min 3 (List.length picks)
    /\ (1 <= List.length (Analysis.insights a))%nat.
Proof.
  intros Hm Hid Hne Hb Ht Hf Hp Hall.
  rewrite (handler_run event teamId Hm Hid Hne), tryBlock_run, Hb, Ht, Hf.
  cbv zeta. rewrite Hp. unfold analyze.
  destruct (mapThrow_Ok (analyzePick (buildPlayersMap bootstrapData)
              (getNextFixtures fixturesData (currentGameweek bootstrapData)
                 (buildTeamsMap bootstrapData))) picks) as [squad [Hsq _]].
  { intros pick Hin. destruct (Hall pick Hin) as [e [He Hid']].
    unfold analyzePick.
    destruct (JsMap.get (KNum (Pick.element pick)) (buildPlayersMap bootstrapData))
      eqn:E; [eexists; reflexivity|].
    exfalso. exact (proj1 (playersMap_get_none _ _) E e He Hid'). }
  rewrite Hsq. eexists. split; [reflexivity|].
  cbn [Analysis.currentGW Analysis.teamName Analysis.teamValue Analysis.bank
       Analysis.overallRank Analysis.gameweekRank Analysis.totalPoints
       Analysis.squad Analysis.transfers Analysis.captains Analysis.insights].
  repeat split.
  - apply (mapThrow_length _ _ _ Hsq).
  - unfold findTransferOpportunities, slice0. apply firstn_le_length.
  - rewrite getCaptainRecommendations_length.
    now rewrite (mapThrow_length _ _ _ Hsq).
  - unfold generateInsights.
    destruct (findTransferOpportunities _ _ _ _); rewrite length_app; simpl; lia.
Qed.

Lemma successful_run_witness :
  exists a,
    handler SampleUpstream.get42 SampleExtra.midSeasonUp []
    = (Ok {| Response.statusCode := 200;
             Response.headers := headers;
             Response.body_ := AnalysisObject a |}, requestPlan "42" 2)
    /\ Analysis.currentGW a = 2.
Proof.
  destruct (successful_run SampleUpstream.get42 SampleExtra.midSeasonUp [] "42"
              SampleExtra.midSeason SampleWorld.teamData Sample.twoFixtures
              SampleWorld.picks) as [a [Hrun [Hgw _]]];
    try reflexivity; try discriminate.
  - intros pick Hin. simpl in Hin. destruct Hin as [<-|[<-|[]]].
    + exists SampleWorld.saka. split; [simpl; tauto|reflexivity].
    + exists SampleWorld.raya. split; [simpl; tauto|reflexivity].
  - exists a. split; [exact Hrun|exact Hgw].
Defined.

(** ** Current gameweek *)

Lemma find_first {A} (p : A -> bool) (before : list A) (x : A) (rest : list A) :
  Forall (fun y => p y = false) before -> p x = true ->
  find p (before ++ x :: rest) = Some x.
Proof.
  intros Hb Hx. induction Hb as [|y l Hy _ IH]; simpl.
  - now rewrite Hx.
  - now rewrite Hy.
Qed.

(** X9. The current gameweek is never 0, and it is the id of the first
    event marked current whenever that id is a non-zero number; events
    marked current after it are ignored. *)
Theorem currentGameweek_first_current (bootstrapData : Bootstrap.t)
    (before : list Event.t) (e : Event.t) (rest : list Event.t) (i : Z) :
  Bootstrap.events bootstrapData = (before ++ e :: rest)%list ->
  Forall (fun x => Event.is_current x = false) before ->
  Event.is_current e = true ->
  Event.id e = Some i -> i <> 0 ->
  currentGameweek bootstrapData = i
  /\ forall b, currentGameweek b <> 0.
Proof.
  intros Hev Hb He Hi Hnz. split.
  - unfold currentGameweek. rewrite Hev, (find_first _ _ _ _ Hb He), Hi.
    apply Z.eqb_neq in Hnz. now rewrite Hnz.
  - intro b. unfold currentGameweek.
    destruct (find Event.is_current (Bootstrap.events b)) as [e'|]; [|discriminate].
    destruct (Event.id e') as [j|]; [|discriminate].
    destruct (j =? 0) eqn:E; [discriminate|]. now apply Z.eqb_neq.
Qed.

Lemma currentGameweek_first_current_witness :
  currentGameweek SampleExtra.midSeason = 2.
Proof.
  refine (proj1 (currentGameweek_first_current SampleExtra.midSeason
                   [ {| Event.id := Some 1; Event.is_current := false |} ]
                   {| Event.id := Some 2; Event.is_current := true |} [] 2
                   _ _ _ _ _)).
  - reflexivity.
  - repeat constructor.
  - reflexivity.
  - reflexivity.
  - discriminate.
Defined.

(** ** Fixture projector: the stored windows *)

Lemma StronglySorted_map {A B} (f : A -> B) (R : A -> A -> Prop)
    (S : B -> B -> Prop) (l : list A) :
  (forall x y, R x y -> S (f x) (f y)) ->
  StronglySorted R l -> StronglySorted S (map f l).
Proof.
  intros H Hs. induction Hs as [|x l Hs IH Hx]; simpl; constructor; auto.
  apply Forall_forall. intros y Hy. apply in_map_iff in Hy.
  destruct Hy as [z [<- Hz]]. rewrite Forall_forall in Hx. auto.
Qed.

Lemma projection_wellformed (allFixtures : list Fixture.t) (currentGW : Z)
    (teamsMap : JsMap.t Team.t) (team : Team.t) :
  (List.length (projection allFixtures currentGW teamsMap team) <= 8)%nat
  /\ StronglySorted ascendingProj (projection allFixtures currentGW teamsMap team).
Proof.
  unfold projection, slice0. split; [apply firstn_le_length|].
  apply StronglySorted_firstn.
  apply (StronglySorted_map _ ascendingGameweek); [|apply sort_byEvent_ascending].
  intros x y H. exact H.
Qed.

(** X10. Every window the projector stores is stored under the short name
    of a team of the lookup, has at most 8 fixtures, is in ascending order
    of gameweek, and holds only fixtures of the gameweeks currentGW to
    currentGW + 8. *)
Theorem stored_windows_wellformed (allFixtures : list Fixture.t) (currentGW : Z)
    (teamsMap : JsMap.t Team.t) (k : key) (fixtures : list Proj.t) :
  JsMap.get k (getNextFixtures allFixtures currentGW teamsMap) = Some fixtures ->
  (exists id team, In (id, team) teamsMap /\ k = KStr (Team.short_name team))
  /\ (List.length fixtures <= 8)%nat
  /\ StronglySorted ascendingProj fixtures
  /\ Forall (fun p => currentGW <= toNumber (Proj.gameweek p) <= currentGW + 8)
            fixtures.
Proof.
  intro Hget. split; [|split; [|split]].
  - apply getNextFixtures_inv in Hget. destruct Hget as [id [team [Hin [Hk _]]]].
    eauto.
  - apply getNextFixtures_inv in Hget. destruct Hget as [id [team [_ [_ ->]]]].
    apply projection_wellformed.
  - apply getNextFixtures_inv in Hget. destruct Hget as [id [team [_ [_ ->]]]].
    apply projection_wellformed.
  - apply Forall_forall. intros p Hp. exact (project_window _ _ _ _ _ _ Hget Hp).
Qed.

Lemma stored_windows_wellformed_witness :
  exists id team,
    In (id, team) Sample.teamsMap /\ KStr "ARS" = KStr (Team.short_name team).
Proof.
  refine (proj1 (stored_windows_wellformed Sample.twoFixtures 1
                   Sample.teamsMap (KStr "ARS") _ _)).
  reflexivity.
Defined.

(** X11. Every team of the lookup has a window under its short name, also
    when it is empty; and the window is empty when no team with that short
    name plays a fixture of the gameweeks currentGW to currentGW + 8. *)
Theorem every_team_has_a_window (allFixtures : list Fixture.t) (currentGW : Z)
    (teamsMap : JsMap.t Team.t) (id : key) (team : Team.t) :
  In (id, team) teamsMap ->
  (exists fixtures,
     JsMap.get (KStr (Team.short_name team))
               (getNextFixtures allFixtures currentGW teamsMap) = Some fixtures)
  /\ ((forall id' team', In (id', team') teamsMap ->
         Team.short_name team' = Team.short_name team ->
         qualifying currentGW team' allFixtures = []) ->
      JsMap.get (KStr (Team.short_name team))
                (getNextFixtures allFixtures currentGW teamsMap) = Some []).
Proof.
  intro Hin. rewrite getNextFixtures_fold.
  destruct (get_fold_set_some
              (fun e : key * Team.t => KStr (Team.short_name (snd e)))
              (fun e => projection allFixtures currentGW teamsMap (snd e))
              (KStr (Team.short_name team)) teamsMap JsMap.empty)
    as [[id1 team1] [Hin1 [Hk1 Hget]]].
  { exists (id, team). auto. }
  split; [eexists; exact Hget|].
  intro Hnone. unfold setEntry in Hget |- *.
  rewrite Hget. f_equal. simpl in *. injection Hk1 as Hk1.
  unfold projection. now rewrite (Hnone id1 team1 Hin1 Hk1).
Qed.

Lemma every_team_has_a_window_witness :
  JsMap.get (KStr "LIV") (getNextFixtures Sample.twoFixtures 1 Sample.teamsMap)
  = Some [].
Proof.
  refine (proj2 (every_team_has_a_window Sample.twoFixtures 1 Sample.teamsMap
                   (KNum 3) Sample.LIV _) _).
  - simpl. tauto.
  - intros id' team' Hin Hname. simpl in Hin.
    destruct Hin as [H|[H|[H|[]]]]; injection H as _ <-;
      first [ reflexivity | discriminate Hname ].
Defined.

(** ** Position labels and ratings *)

Lemma getPosition_cases (t : Z) :
  t = 1 \/ t = 2 \/ t = 3 \/ t = 4 \/ (~ 1 <= t <= 4 /\ getPosition t = "UNK").
Proof.
  destruct t as [|p|p]; try (right; right; right; right; split; [lia|reflexivity]).
  destruct p as [[p|p|]|[[p|p|]|[p|p|]|]|]; try tauto;
    right; right; right; right; split; try reflexivity; lia.
Qed.

(** X12. The position label is "UNK" exactly for the element types other
    than 1, 2, 3 and 4, and these four types have four different labels. *)
Theorem getPosition_labels (t : Z) :
  (getPosition t = "UNK" <-> ~ 1 <= t <= 4)
  /\ (forall u, 1 <= t <= 4 -> getPosition u = getPosition t -> u = t).
Proof.
  split.
  - destruct (getPosition_cases t) as [->|[->|[->|[->|[H1 H2]]]]];
      try (split; [discriminate|lia]). tauto.
  - intros u Ht Heq.
    destruct (getPosition_cases t) as [->|[->|[->|[->|[H1 _]]]]]; [..|lia];
      destruct (getPosition_cases u) as [->|[->|[->|[->|[_ H2]]]]];
      try reflexivity; try discriminate Heq; rewrite H2 in Heq; discriminate Heq.
Qed.

Lemma getPosition_labels_witness : getPosition 7 = "UNK".
Proof. apply (proj1 (getPosition_labels 7)). lia. Defined.

Ltac rating_cases :=
  unfold getRating; rewrite !totalScore_Fin; unfold ofZ;
  repeat match goal with
         | |- context [(Fin ?x >=? Fin ?y)%num] =>
             let E := fresh "E" in
             destruct (Fin x >=? Fin y)%num eqn:E;
             [apply geb_Fin in E | apply geb_Fin_false in E]
         end;
  unfold inject_Z in *.

(** X13. The rating never gets worse when the form rises or the average
    difficulty falls (Poor < Average < Good < Excellent). *)
Theorem getRating_monotone (form form' avgDifficulty avgDifficulty' : Q) :
  (form <= form')%Q -> (avgDifficulty' <= avgDifficulty)%Q ->
  (labelRank (getRating (Fin form) (Fin avgDifficulty))
   <= labelRank (getRating (Fin form') (Fin avgDifficulty')))%nat.
Proof.
  intros Hf Ha. rating_cases;
    first [ vm_compute; lia | exfalso; lra ].
Qed.

Lemma getRating_monotone_witness :
  (labelRank (getRating (Fin 2) (Fin 4)) <= labelRank (getRating (Fin 6) (Fin 2)))%nat.
Proof.
  apply (getRating_monotone 2 6 4 2); unfold Qle; simpl; lia.
Defined.

(** X14. Rating and rating class always go together as one of the four
    pairs; the class is the label in lower case. A form or an average
    difficulty that is not a number is rated "Poor". *)
Theorem rating_and_class (form avgDifficulty : num) :
  In (getRating form avgDifficulty, getRatingClass form avgDifficulty)
     [ ("Excellent", "excellent"); ("Good", "good");
       ("Average", "average"); ("Poor", "poor") ]
  /\ (is_nan form || is_nan avgDifficulty = true ->
      getRating form avgDifficulty = "Poor").
Proof.
  split.
  - unfold getRatingClass, getRating.
    destruct (totalScore form avgDifficulty >=? ofZ 14)%num; [simpl; tauto|].
    destruct (totalScore form avgDifficulty >=? ofZ 10)%num; [simpl; tauto|].
    destruct (totalScore form avgDifficulty >=? ofZ 6)%num; simpl; tauto.
  - destruct form, avgDifficulty; simpl; try discriminate; reflexivity.
Qed.

Lemma rating_and_class_witness : getRating NaN (ofZ 3) = "Poor".
Proof. apply (proj2 (rating_and_class NaN (ofZ 3))). reflexivity. Defined.

(** ** Average difficulty *)

Lemma fold_sum_difficulty (fixtures : list Proj.t) (a : Q) :
  exists q,
    fold_left (fun sum f => (sum + ofZ (Proj.difficulty f))%num) fixtures (Fin a)
    = Fin q
    /\ (q == a + inject_Z (sumDifficulty fixtures))%Q.
Proof.
  revert a. induction fixtures as [|f fs IH]; intro a; simpl.
  - exists a. split; [reflexivity|]. unfold inject_Z. lra.
  - destruct (IH (a + inject_Z (Proj.difficulty f))%Q) as [q [Hq Heq]].
    exists q. split; [exact Hq|]. rewrite Heq, inject_Z_plus. lra.
Qed.

Lemma Qeq_bool_false (x y : Q) : ~ (x == y)%Q -> Qeq_bool x y = false.
Proof.
  intro H. destruct (Qeq_bool x y) eqn:E; [|reflexivity].
  apply Qeq_bool_iff in E. contradiction.
Qed.

Lemma Qeq_bool_true (x y : Q) : (x == y)%Q -> Qeq_bool x y = true.
Proof. apply Qeq_bool_iff. Qed.

Lemma averageDifficulty_sum (fixtures : list Proj.t) :
  exists q,
    (q == inject_Z (sumDifficulty fixtures))%Q
    /\ averageDifficulty fixtures
       = (Fin q / ofNat (List.length fixtures) || ofZ 3)%num.
Proof.
  unfold averageDifficulty.
  destruct (fold_sum_difficulty fixtures (inject_Z 0)) as [q [Hq Heq]].
  exists q. split.
  - rewrite Heq. unfold inject_Z. lra.
  - change (ofZ 0) with (Fin (inject_Z 0)). now rewrite Hq.
Qed.

(** X15. The average difficulty of a window is the neutral 3 when its
    ratings add up to zero (in particular when it is empty), and the
    arithmetic mean of its ratings otherwise. *)
Theorem averageDifficulty_mean (fixtures : list Proj.t) :
  (sumDifficulty fixtures = 0 -> averageDifficulty fixtures = ofZ 3)
  /\ (sumDifficulty fixtures <> 0 ->
      Num.eqv (averageDifficulty fixtures)
              (Fin (inject_Z (sumDifficulty fixtures)
                    / inject_Z (Z.of_nat (List.length fixtures))))).
Proof.
  destruct (averageDifficulty_sum fixtures) as [q [Hq' ->]].
  unfold ofNat, Num.div.
  destruct (Qeq_bool (inject_Z (Z.of_nat (List.length fixtures))) 0) eqn:El.
  - split; [reflexivity|].
    intro Hs. exfalso. apply Hs. apply Qeq_bool_iff in El.
    destruct fixtures; [reflexivity|]. simpl in El.
    unfold Qeq in El. simpl in El. lia.
  - assert (Hl : ~ (inject_Z (Z.of_nat (List.length fixtures)) == 0)%Q).
    { intro H. apply Qeq_bool_true in H. congruence. }
    unfold or_else, truthy. split.
    + intro Hs. rewrite Hs in Hq'.
      destruct (Qeq_bool (q / inject_Z (Z.of_nat (List.length fixtures))) 0)
        eqn:E; [reflexivity|].
      exfalso. apply Qeq_bool_neq in E. apply E.
      rewrite Hq'. unfold Qdiv. change (inject_Z 0) with 0%Q. ring.
    + intro Hs.
      destruct (Qeq_bool (q / inject_Z (Z.of_nat (List.length fixtures))) 0)
        eqn:E.
      * exfalso. apply Qeq_bool_iff in E. apply Hs.
        assert (Hz : (q == 0)%Q).
        { rewrite <- (Qmult_div_r q _ Hl). rewrite E. ring. }
        rewrite Hq' in Hz. unfold Qeq in Hz. simpl in Hz. lia.
      * change (q / inject_Z (Z.of_nat (List.length fixtures))
                == inject_Z (sumDifficulty fixtures)
                   / inject_Z (Z.of_nat (List.length fixtures)))%Q.
        apply Qdiv_comp; [exact Hq'|reflexivity].
Qed.

Lemma averageDifficulty_mean_witness :
  Num.eqv (averageDifficulty (window 5 (KStr "CHE") SampleWorld.teamFixtures))
          (Fin (inject_Z 8 / inject_Z 2)).
Proof.
  refine (proj2 (averageDifficulty_mean
                   (window 5 (KStr "CHE") SampleWorld.teamFixtures)) _).
  vm_compute. discriminate.
Defined.

Lemma sumDifficulty_bounds (fixtures : list Proj.t) :
  ratedOneToFive fixtures ->
  Z.of_nat (List.length fixtures) <= sumDifficulty fixtures
  <= 5 * Z.of_nat (List.length fixtures).
Proof.
  induction 1 as [|f fs Hf _ IH]; [simpl; lia|].
  change (sumDifficulty (f :: fs)) with (Proj.difficulty f + sumDifficulty fs).
  change (List.length (f :: fs)) with (S (List.length fs)). lia.
Qed.

(** X16. When every rating of a window lies between 1 and 5, so does the
    average difficulty (the neutral 3 of an empty window included). *)
Theorem averageDifficulty_between_1_and_5 (fixtures : list Proj.t) :
  ratedOneToFive fixtures ->
  exists q, averageDifficulty fixtures = Fin q /\ (1 <= q <= 5)%Q.
Proof.
  intro H. apply sumDifficulty_bounds in H.
  destruct (averageDifficulty_sum fixtures) as [q [Hq ->]].
  unfold ofNat, Num.div.
  destruct (Qeq_bool (inject_Z (Z.of_nat (List.length fixtures))) 0) eqn:El.
  - exists (inject_Z 3). split; [reflexivity|]. unfold inject_Z. lra.
  - assert (Hlen : (0 < inject_Z (Z.of_nat (List.length fixtures)))%Q).
    { apply Qeq_bool_neq in El.
      assert (0 <= Z.of_nat (List.length fixtures)) by lia.
      destruct (Z.eq_dec (Z.of_nat (List.length fixtures)) 0) as [E|E].
      - exfalso. apply El. now rewrite E.
      - change 0%Q with (inject_Z 0). rewrite <- Zlt_Qlt. lia. }
    assert (Hlo : (1 <= q / inject_Z (Z.of_nat (List.length fixtures)))%Q).
    { apply Qle_shift_div_l; [exact Hlen|]. rewrite Hq, Qmult_1_l.
      rewrite <- Zle_Qle. lia. }
    assert (Hhi : (q / inject_Z (Z.of_nat (List.length fixtures)) <= 5)%Q).
    { apply Qle_shift_div_r; [exact Hlen|]. rewrite Hq.
      change 5%Q with (inject_Z 5). rewrite <- inject_Z_mult, <- Zle_Qle. lia. }
    unfold or_else, truthy.
    destruct (Qeq_bool (q / inject_Z (Z.of_nat (List.length fixtures))) 0) eqn:E.
    + apply Qeq_bool_iff in E. rewrite E in Hlo. exfalso. lra.
    + eexists. split; [reflexivity|]. split; assumption.
Qed.

Lemma averageDifficulty_between_1_and_5_witness :
  exists q,
    averageDifficulty (window 5 (KStr "ARS") SampleWorld.teamFixtures) = Fin q
    /\ (1 <= q <= 5)%Q.
Proof.
  apply (averageDifficulty_between_1_and_5
           (window 5 (KStr "ARS") SampleWorld.teamFixtures)).
  vm_compute. repeat constructor; discriminate.
Defined.

(** ** Transfer suggester: who goes out and who comes in *)

Lemma StronglySorted_app_inv {A} (R : A -> A -> Prop) (l1 l2 : list A) (x y : A) :
  StronglySorted R (l1 ++ l2)%list -> In x l1 -> In y l2 -> R x y.
Proof.
  induction l1 as [|a l1 IH]; intros Hs Hx Hy; [destruct Hx|].
  simpl in Hs. inversion Hs as [|? ? Hs' Ha]; subst.
  destruct Hx as [->|Hx].
  - rewrite Forall_forall in Ha. apply Ha. apply in_or_app. now right.
  - now apply IH.
Qed.

(** Nothing left out of the first [n] of a sorted array comes before them. *)
Lemma firstn_sorted_top {A} (R : A -> A -> Prop) (n : nat) (l : list A) (c w : A) :
  StronglySorted R l -> In c (firstn n l) -> In w l ->
  In w (firstn n l) \/ R c w.
Proof.
  intros Hs Hc Hw. rewrite <- (firstn_skipn n l) in Hw, Hs.
  apply in_app_or in Hw. destruct Hw as [Hw|Hw]; [now left|].
  right. exact (StronglySorted_app_inv R _ _ c w Hs Hc Hw).
Qed.

Lemma after_byForm (x y : Squad.t) :
  Squad.form x <> DecNaN -> Squad.form y <> DecNaN ->
  after byForm x y = Qlt_bool (formRank y) (formRank x).
Proof.
  unfold after, byForm, formRank.
  destruct (Squad.form x) as [|nx tx], (Squad.form y) as [|ny ty];
    try contradiction. intros _ _.
  unfold parseFloat1, gtb, ltb, cmp2, ofZ, sub, lift2.
  apply Qlt_bool_ext. unfold inject_Z. split; intro; lra.
Qed.

(** X17. The players considered for a transfer out are at most 3 members of
    the squad, all weak (form below 3, or average difficulty above 3.5), for
    every squad. When the forms of the squad are numbers they come in
    ascending order of form, and no weak member left out has a lower form
    than one of them. *)
Theorem transferOutCandidates_weakest (squad : list Squad.t) :
  (List.length (transferOutCandidates squad) <= 3)%nat
  /\ (forall c, In c (transferOutCandidates squad) ->
        In c squad /\ isWeak c = true)
  /\ (Forall (fun p => Squad.form p <> DecNaN) squad ->
      StronglySorted ascendingForm (transferOutCandidates squad)
      /\ forall c w,
           In c (transferOutCandidates squad) -> In w squad -> isWeak w = true ->
           In w (transferOutCandidates squad) \/ ascendingForm c w).
Proof.
  split; [apply firstn_le_length|].
  split; [apply transferOutCandidates_In|].
  intro Hforms.
  assert (Hweak : Forall (fun p => Squad.form p <> DecNaN) (filter isWeak squad)).
  { rewrite Forall_forall in *. intros p Hp. apply filter_In in Hp. apply Hforms, Hp. }
  assert (Hs : StronglySorted (rank_le formRank) (sort byForm (filter isWeak squad))).
  { apply (sort_sorted byForm formRank (fun p => Squad.form p <> DecNaN));
      auto using after_byForm. }
  assert (Hrel : forall c w, In c squad -> In w squad ->
                   rank_le formRank c w -> ascendingForm c w).
  { intros c w Hc Hw Hle. rewrite Forall_forall in Hforms.
    specialize (Hforms c Hc) as Hfc. specialize (Hforms w Hw) as Hfw.
    unfold rank_le, formRank, ascendingForm in *.
    destruct (Squad.form c), (Squad.form w); try contradiction.
    now apply Qle_bool_iff. }
  assert (Hsub : forall c, In c (sort byForm (filter isWeak squad)) -> In c squad).
  { intros c Hc. apply sort_In_inv, filter_In in Hc. tauto. }
  split.
  - unfold transferOutCandidates, slice0. apply StronglySorted_firstn.
    clear Hweak. induction Hs as [|a l Hs IH Ha]; constructor.
    + apply IH. intros c Hc. apply Hsub. now right.
    + rewrite Forall_forall in *. intros b Hb. apply Hrel; auto.
      * apply Hsub. now left.
      * apply Hsub. now right.
  - intros c w Hc Hw Hww. unfold transferOutCandidates, slice0 in *.
    assert (Hw' : In w (sort byForm (filter isWeak squad))).
    { apply (sort_In byForm). apply filter_In. auto. }
    destruct (firstn_sorted_top _ 3 _ c w Hs Hc Hw') as [H|H]; [now left|].
    right. apply Hrel; auto. apply Hsub. revert Hc. apply (slice0_In 3).
Qed.

Lemma transferOutCandidates_weakest_witness :
  StronglySorted ascendingForm
    (transferOutCandidates (SampleWorld.squadOf [10; 13; 14; 15; 16])).
Proof.
  refine (proj1 (proj2 (proj2 (transferOutCandidates_weakest
                   (SampleWorld.squadOf [10; 13; 14; 15; 16]))) _)).
  vm_compute. repeat constructor; discriminate.
Defined.

Lemma pushTransfer_nothing (squad : list Squad.t) (playersMap : JsMap.t Player.t)
    (teamFixtures : teamFixturesMap) (bank : num) (outs : list Squad.t) :
  (forall o, In o outs ->
     alternatives squad playersMap teamFixtures bank o = []) ->
  fold_left (pushTransfer squad playersMap teamFixtures bank) outs [] = [].
Proof.
  induction outs as [|o outs IH]; intro H; simpl; [reflexivity|].
  unfold pushTransfer at 2. rewrite (H o (or_introl eq_refl)).
  apply IH. intros. apply H. now right.
Qed.

Lemma filter_nothing {A} (p : A -> bool) (l : list A) :
  (forall x, In x l -> p x = false) -> filter p l = [].
Proof.
  induction l as [|x l IH]; intro H; simpl; [reflexivity|].
  rewrite (H x (or_introl eq_refl)). apply IH. intros. apply H. now right.
Qed.

(** X18. When no player considered for a transfer out has an alternative in
    the pool (in particular when no squad member is weak), no transfer is
    suggested, and the insights end with "Team Looking Solid" and do not
    contain "Transfer Opportunities". *)
Theorem no_alternative_no_transfer (squad : list Squad.t)
    (playersMap : JsMap.t Player.t) (teamFixtures : teamFixturesMap)
    (bank : num) (teamData : Entry.t) :
  (forall o p, In o (transferOutCandidates squad) ->
     In p (JsMap.values playersMap) ->
     isAlternative squad bank o p = false) ->
  findTransferOpportunities squad playersMap teamFixtures bank = []
  /\ generateInsights squad
       (findTransferOpportunities squad playersMap teamFixtures bank) teamData
     = (thresholdInsights squad teamData ++ [teamLookingSolid])%list
  /\ hasTitle "Transfer Opportunities"
       (generateInsights squad
          (findTransferOpportunities squad playersMap teamFixtures bank) teamData)
     = false.
Proof.
  intro H.
  assert (Hnone : findTransferOpportunities squad playersMap teamFixtures bank = []).
  { unfold findTransferOpportunities. rewrite pushTransfer_nothing; [reflexivity|].
    intros o Ho. unfold alternatives. rewrite filter_nothing; [reflexivity|].
    intros p Hp. now apply H. }
  rewrite Hnone. split; [reflexivity|]. split; [reflexivity|].
  unfold generateInsights, hasTitle. rewrite existsb_app.
  apply orb_false_iff. split; [|reflexivity].
  unfold thresholdInsights.
  repeat match goal with
         | |- context [if ?b then _ else _] => destruct b
         end; reflexivity.
Qed.

Lemma no_alternative_no_transfer_witness :
  findTransferOpportunities (SampleWorld.squadOf [13]) SampleWorld.playersMap
    SampleWorld.teamFixtures (tenths 10) = [].
Proof.
  refine (proj1 (no_alternative_no_transfer (SampleWorld.squadOf [13])
                   SampleWorld.playersMap SampleWorld.teamFixtures (tenths 10)
                   SampleWorld.teamData _)).
  intros o p Ho. vm_compute in Ho. destruct Ho.
Defined.

Lemma gtb_true_Fin (a b : num) :
  (a >? b)%num = true -> exists x y, a = Fin x /\ b = Fin y /\ (y < x)%Q.
Proof.
  destruct a as [|x], b as [|y]; try discriminate.
  intro H. exists x, y. repeat split. now apply Qlt_bool_iff.
Qed.

(** X20. The outgoing player of every transfer pair is one of the weak
    squad members considered, and the projected points of the pair are
    never negative. *)
Theorem transfer_out_is_weak_and_gain_not_negative (squad : list Squad.t)
    (playersMap : JsMap.t Player.t) (teamFixtures : teamFixturesMap)
    (bank : num) (t : Transfer.t) :
  In t (findTransferOpportunities squad playersMap teamFixtures bank) ->
  (exists playerOut,
     In playerOut (transferOutCandidates squad)
     /\ isWeak playerOut = true
     /\ Transfer.name (Transfer.playerOut t) = Squad.name playerOut
     /\ Transfer.form (Transfer.playerOut t) = Squad.form playerOut)
  /\ exists n, Transfer.projectedPoints t = Dec false n.
Proof.
  unfold findTransferOpportunities. intro H.
  apply slice0_In, pushTransfer_In in H.
  destruct H as [[]|[playerOut [playerIn [Hout [Hin ->]]]]].
  split.
  - exists playerOut. repeat split; auto.
    now apply transferOutCandidates_In in Hout.
  - apply alternatives_In in Hin. destruct Hin as [p [-> [_ Halt]]].
    unfold isAlternative in Halt. rewrite !andb_true_iff in Halt.
    destruct Halt as [[[[_ _] Hform] _] _].
    apply gtb_true_Fin in Hform. destruct Hform as [x [y [Hx [Hy Hlt]]]].
    unfold mkTransfer. cbn [Transfer.projectedPoints Candidate.player toCandidate].
    rewrite Hx, Hy. unfold toFixed1, Num.mul, Num.sub, lift2, ofZ.
    eexists. f_equal. apply not_true_is_false. intro Hneg.
    apply Qlt_bool_iff in Hneg. unfold inject_Z in Hneg. lra.
Qed.

Lemma transfer_out_is_weak_and_gain_not_negative_witness :
  exists n, Transfer.projectedPoints SampleWorld.sakaForPalmer = Dec false n.
Proof.
  refine (proj2 (transfer_out_is_weak_and_gain_not_negative
                   (SampleWorld.squadOf [10; 13]) SampleWorld.playersMap
                   SampleWorld.teamFixtures (tenths 10)
                   SampleWorld.sakaForPalmer _)).
  vm_compute. left. reflexivity.
Defined.

(** ** Captaincy ranker: who is returned *)

Lemma captainCandidates_In (squad : list Squad.t) (teamFixtures : teamFixturesMap)
    (c : Captain.cand) :
  In c (captainCandidates squad teamFixtures) ->
  exists s, In s squad /\ c = toCaptainCandidate teamFixtures s.
Proof.
  unfold captainCandidates. intro H.
  apply slice0_In, sort_In_inv, in_map_iff in H.
  destruct H as [s [<- Hs]]. eauto.
Qed.

(** X21. Each returned candidate is built from a squad member, for every
    squad. When the forms of the squad are numbers the returned ones are the
    top scorers: a member left out never has a higher captain score than a
    returned one. *)
Theorem captains_are_top_scorers (squad : list Squad.t)
    (teamFixtures : teamFixturesMap) :
  (forall c, In c (captainCandidates squad teamFixtures) ->
     exists s, In s squad /\ c = toCaptainCandidate teamFixtures s)
  /\ (Forall (fun p => Squad.form p <> DecNaN) squad ->
      forall c s,
        In c (captainCandidates squad teamFixtures) -> In s squad ->
        In (toCaptainCandidate teamFixtures s) (captainCandidates squad teamFixtures)
        \/ descendingScore c (toCaptainCandidate teamFixtures s)).
Proof.
  split; [apply captainCandidates_In|].
  intros Hforms c s Hc Hs.
  assert (Hall : Forall hasScore (map (toCaptainCandidate teamFixtures) squad)).
  { apply Forall_forall. intros x Hx. apply in_map_iff in Hx.
    destruct Hx as [p [<- Hp]]. apply toCaptainCandidate_hasScore.
    rewrite Forall_forall in Hforms. auto. }
  assert (Hsorted : StronglySorted (rank_le scoreRank)
                      (sort byCaptainScoreDesc
                         (map (toCaptainCandidate teamFixtures) squad))).
  { apply (sort_sorted byCaptainScoreDesc scoreRank hasScore);
      auto using after_byCaptainScoreDesc. }
  assert (Hs' : In (toCaptainCandidate teamFixtures s)
                   (sort byCaptainScoreDesc
                      (map (toCaptainCandidate teamFixtures) squad))).
  { apply (sort_In byCaptainScoreDesc). now apply in_map. }
  unfold captainCandidates, slice0 in *.
  destruct (firstn_sorted_top _ 3 _ _ _ Hsorted Hc Hs') as [H|H]; [now left|].
  right. rewrite Forall_forall in Hall.
  assert (H1 : hasScore c).
  { apply Hall. apply (sort_In_inv byCaptainScoreDesc). revert Hc. apply (slice0_In 3). }
  assert (H2 : hasScore (toCaptainCandidate teamFixtures s)).
  { apply Hall. now apply in_map. }
  unfold rank_le, scoreRank, descendingScore, hasScore in *.
  destruct (Captain.captainScore c),
    (Captain.captainScore (toCaptainCandidate teamFixtures s)); try discriminate.
  apply Qle_bool_iff. lra.
Qed.

Lemma captains_are_top_scorers_witness :
  In (toCaptainCandidate SampleWorld.teamFixtures SampleWorld.sakaEntry)
     (captainCandidates (SampleWorld.squadOf [10; 13]) SampleWorld.teamFixtures)
  \/ descendingScore
       (toCaptainCandidate SampleWorld.teamFixtures SampleWorld.sakaEntry)
       (toCaptainCandidate SampleWorld.teamFixtures SampleWorld.sakaEntry).
Proof.
  refine (proj2 (captains_are_top_scorers (SampleWorld.squadOf [10; 13])
                   SampleWorld.teamFixtures) _
            (toCaptainCandidate SampleWorld.teamFixtures SampleWorld.sakaEntry)
            SampleWorld.sakaEntry _ _).
  - vm_compute. repeat constructor; discriminate.
  - vm_compute. right. left. reflexivity.
  - vm_compute. left. reflexivity.
Defined.

Lemma window1_In (k : key) (teamFixtures : teamFixturesMap) (f : Proj.t) :
  nth_error (window 1 k teamFixtures) 0 = Some f ->
  exists fixtures, JsMap.get k teamFixtures = Some fixtures /\ In f fixtures.
Proof.
  unfold window. destruct (JsMap.get k teamFixtures) as [[|g fs]|];
    try discriminate.
  simpl. intro H. injection H as <-. eexists. split; [reflexivity|now left].
Qed.

Lemma toCaptainCandidate_confidence (teamFixtures : teamFixturesMap) (s : Squad.t)
    (q : Q) :
  parseFloat1 (Squad.form s) = Fin q -> (0 <= q)%Q ->
  (forall k fixtures f,
     JsMap.get k teamFixtures = Some fixtures -> In f fixtures ->
     Proj.difficulty f <= 6) ->
  exists z, Captain.confidence (toCaptainCandidate teamFixtures s) = ofZ z
            /\ 0 <= z <= 95.
Proof.
  intros Hform Hq Hdiff.
  assert (Hscore : exists x,
             Captain.captainScore (toCaptainCandidate teamFixtures s) = Fin x
             /\ (0 <= x)%Q).
  { unfold toCaptainCandidate. cbv zeta. cbn [Captain.captainScore].
    rewrite Hform.
    destruct (nth_error (window 1 (KStr (Squad.team s)) teamFixtures) 0)
      as [f|] eqn:E.
    - apply window1_In in E. destruct E as [fixtures [Hget Hin]].
      specialize (Hdiff _ _ _ Hget Hin).
      assert (Hd : (inject_Z (Proj.difficulty f) <= 6)%Q).
      { change 6%Q with (inject_Z 6). now rewrite <- Zle_Qle. }
      destruct (Proj.isHome f); eexists; (split; [reflexivity|]);
        unfold inject_Z in *; nra.
    - eexists. split; [reflexivity|]. unfold inject_Z. lra. }
  destruct Hscore as [x [Hx Hx0]].
  assert (Hconf : Captain.confidence (toCaptainCandidate teamFixtures s)
                  = Num.min (ofZ 95) (Num.round (Fin x * tenths 12))).
  { rewrite <- Hx. reflexivity. }
  rewrite Hconf. unfold tenths, ofZ, Num.mul, lift2, Num.round, Num.min.
  set (r := Qfloor (x * (12 # 10) + (1 # 2))).
  assert (Hr : 0 <= r).
  { change 0 with (Qfloor 0). apply Qfloor_resp_le. lra. }
  destruct (Qle_bool (inject_Z 95) (inject_Z r)) eqn:E.
  - exists 95. split; [reflexivity|lia].
  - exists r. split; [reflexivity|]. split; [exact Hr|].
    destruct (Z_le_gt_dec 95 r) as [Hle|Hgt]; [|lia].
    rewrite Zle_Qle in Hle. apply Qle_bool_iff in Hle. congruence.
Qed.

Lemma conf_of_candidate (l : list Captain.cand) (i : nat) (r : Captain.t) :
  In r (mapi_from i renderCaptain l) ->
  exists c, In c l /\ Captain.conf r = Captain.confidence c.
Proof.
  revert i. induction l as [|c l IH]; intros i H; [destruct H|].
  simpl in H. destruct H as [<-|H].
  - exists c. split; [now left|reflexivity].
  - destruct (IH _ H) as [c' [Hc' Hr]]. exists c'. split; [now right|exact Hr].
Qed.

(** X22. When the forms of the squad are non-negative numbers and no
    projected fixture is rated above 6, every recommended confidence is a
    whole number between 0 and 95. *)
Theorem captain_confidence_in_range (squad : list Squad.t)
    (teamFixtures : teamFixturesMap) :
  Forall (fun p => exists q, parseFloat1 (Squad.form p) = Fin q /\ (0 <= q)%Q) squad ->
  (forall k fixtures f,
     JsMap.get k teamFixtures = Some fixtures -> In f fixtures ->
     Proj.difficulty f <= 6) ->
  Forall (fun r => exists z, Captain.conf r = ofZ z /\ 0 <= z <= 95)
         (getCaptainRecommendations squad teamFixtures).
Proof.
  intros Hforms Hdiff. apply Forall_forall. intros r Hr.
  unfold getCaptainRecommendations, mapi in Hr.
  apply conf_of_candidate in Hr. destruct Hr as [c [Hc ->]].
  apply captainCandidates_In in Hc. destruct Hc as [s [Hs ->]].
  rewrite Forall_forall in Hforms. destruct (Hforms s Hs) as [q [Hq Hq0]].
  exact (toCaptainCandidate_confidence teamFixtures s q Hq Hq0 Hdiff).
Qed.

Lemma captain_confidence_in_range_witness :
  Forall (fun r => exists z, Captain.conf r = ofZ z /\ 0 <= z <= 95)
         (getCaptainRecommendations (SampleWorld.squadOf [10; 13; 14; 15])
            SampleWorld.teamFixtures).
Proof.
  apply (captain_confidence_in_range (SampleWorld.squadOf [10; 13; 14; 15])
           SampleWorld.teamFixtures).
  - apply Forall_forall. intros p Hp. vm_compute in Hp.
    repeat (destruct Hp as [<-|Hp];
            [eexists; split; [reflexivity|unfold Qle; simpl; lia]|]).
    destruct Hp.
  - intros k fixtures f Hget Hin.
    assert (Hk : exists id team,
               In (id, team) (buildTeamsMap SampleWorld.bootstrapData)
               /\ k = KStr (Team.short_name team)
               /\ fixtures = projection Sample.twoFixtures 1
                               (buildTeamsMap SampleWorld.bootstrapData) team)
      by (apply getNextFixtures_inv; exact Hget).
    destruct Hk as [id [team [Hteam [_ ->]]]].
    simpl in Hteam. destruct Hteam as [H|[H|[H|[]]]]; injection H as _ <-;
      vm_compute in Hin;
      repeat (destruct Hin as [<-|Hin]; [vm_compute; discriminate|]);
      destruct Hin.
Defined.

(** ** Insight generator: which insights appear *)

Lemma teamValue_threshold (v : Z) :
  (ofZ v / ofZ 10 >=? ofZ 103)%num = (1030 <=? v).
Proof.
  unfold geb, leb, cmp2, ofZ, Num.div.
  change (Qeq_bool (inject_Z 10) 0) with false. cbv iota.
  destruct (1030 <=? v) eqn:E.
  - apply Z.leb_le in E. apply Qle_bool_iff.
    unfold Qle. simpl. lia.
  - apply Z.leb_gt in E. apply not_true_is_false. intro H.
    apply Qle_bool_iff in H. unfold Qle in H. simpl in H. lia.
Qed.

(** X23. Which insights appear is decided by four thresholds: "Strong
    Fixture Run" with 5 or more members of average difficulty below 2.5;
    otherwise "Difficult Fixtures Ahead" with 5 or more above 3.5; "Form
    Concerns" with 3 or more members of form below 2; "Strong Team Value"
    from a team value of 103.0. There are between 1 and 4 insights. *)
Theorem insights_by_threshold (squad : list Squad.t) (transfers : list Transfer.t)
    (teamData : Entry.t) :
  let insights := generateInsights squad transfers teamData in
  hasTitle "Strong Fixture Run" insights = (5 <=? easyCount squad)%nat
  /\ hasTitle "Difficult Fixtures Ahead" insights
     = (negb (5 <=? easyCount squad)%nat && (5 <=? hardCount squad)%nat)%bool
  /\ hasTitle "Form Concerns" insights = (3 <=? poorFormCount squad)%nat
  /\ hasTitle "Strong Team Value" insights
     = (1030 <=? Entry.last_deadline_value teamData)
  /\ (1 <= List.length insights <= 4)%nat.
Proof.
  unfold generateInsights, thresholdInsights.
  fold (easyCount squad) (hardCount squad) (poorFormCount squad).
  rewrite teamValue_threshold.
  destruct (5 <=? easyCount squad)%nat, (5 <=? hardCount squad)%nat,
    (3 <=? poorFormCount squad)%nat,
    (1030 <=? Entry.last_deadline_value teamData), transfers;
    cbv zeta; unfold hasTitle; simpl; repeat split; lia.
Qed.

(** ** The client *)

Lemma trimStart_cases (s : string) :
  (App.trimStart s = "" /\ allSpaces s = true)
  \/ (exists c r, App.trimStart s = String c r /\ App.isSpace c = false
                  /\ allSpaces s = false).
Proof.
  unfold allSpaces. induction s as [|c s IH]; simpl; [now left|].
  destruct (App.isSpace c) eqn:E; simpl.
  - exact IH.
  - right. exists c, s. auto.
Qed.

Lemma trimEnd_head (c : ascii) (r : string) :
  App.isSpace c = false -> App.trimEnd (String c r) <> "".
Proof.
  intro H. simpl. destruct (App.trimEnd r); [now rewrite H|discriminate].
Qed.

Lemma isBlank_allSpaces (s : string) : App.isBlank s = allSpaces s.
Proof.
  unfold App.isBlank, App.trim.
  destruct (trimStart_cases s) as [[Hs Ha]|[c [r [Hs [Hc Ha]]]]]; rewrite Hs, Ha.
  - simpl. apply orb_true_r.
  - assert (Hne : s <> "") by (intros ->; discriminate Ha).
    apply String.eqb_neq in Hne. rewrite Hne. simpl orb.
    apply String.eqb_neq. now apply trimEnd_head.
Qed.

(** X24. With an identifier that is empty or consists of white space only,
    the client sends no request: it sets the error "Please enter your FPL
    Team ID" and leaves the loading flag and the shown analysis alone. *)
Theorem blank_identifier_sends_nothing {D} (server : string -> App.reply D)
    (st : App.state D) :
  allSpaces (App.teamId st) = true ->
  App.analyzeTeam server st
  = ({| App.teamId := App.teamId st; App.loading := App.loading st;
        App.error := Some "Please enter your FPL Team ID";
        App.analysis := App.analysis st |}, []).
Proof.
  intro H. unfold App.analyzeTeam. now rewrite isBlank_allSpaces, H.
Qed.

Lemma blank_identifier_sends_nothing_witness :
  snd (App.analyzeTeam SampleApp.okServer (SampleApp.idle "   ")) = [].
Proof.
  rewrite (blank_identifier_sends_nothing SampleApp.okServer (SampleApp.idle "   "));
    reflexivity.
Defined.

Lemma str_or_nonempty (s d : string) : d <> "" -> str_or s d <> "".
Proof.
  intro Hd. unfold str_or. destruct (String.eqb s "") eqn:E; [exact Hd|].
  now apply String.eqb_neq.
Qed.

(** X25. With an identifier of ASCII characters that is not blank the
    client sends exactly one request, to the endpoint followed by the
    identifier as typed, and ends with the loading flag off. It shows the
    analysis, and no error, exactly when the response is ok and its body
    parses; in every other case it shows no analysis and an error text that
    is not empty. *)
Theorem analyzeTeam_outcome {D} (server : string -> App.reply D)
    (st : App.state D) :
  isAsciiText (App.teamId st) = true ->
  allSpaces (App.teamId st) = false ->
  exists st',
    App.analyzeTeam server st = (st', [App.endpoint ++ App.teamId st])
    /\ App.loading st' = false
    /\ App.teamId st' = App.teamId st
    /\ match server (App.endpoint ++ App.teamId st) with
       | App.Response true _ (Ok data) =>
           App.analysis st' = Some data /\ App.error st' = None
       | _ =>
           App.analysis st' = None
           /\ exists m, App.error st' = Some m /\ m <> ""
       end.
Proof.
  intros _ H. unfold App.analyzeTeam. rewrite isBlank_allSpaces, H.
  assert (Hd : App.failureText <> "") by discriminate.
  destruct (server (App.endpoint ++ App.teamId st)) as [m|[|] txt [data|m]];
    eexists; (split; [reflexivity|]); simpl; repeat split;
    eexists; (split; [reflexivity|]);
    first [ exact (str_or_nonempty _ _ Hd) | discriminate ].
Qed.

Lemma analyzeTeam_outcome_witness :
  exists st',
    App.analyzeTeam SampleApp.brokenServer (SampleApp.idle "42")
    = (st', ["/.netlify/functions/analyze-team?teamId=42"])
    /\ App.loading st' = false
    /\ App.analysis st' = None
    /\ App.error st' = Some "Error: Internal Server Error".
Proof.
  destruct (analyzeTeam_outcome SampleApp.brokenServer (SampleApp.idle "42"))
    as [st' [Hrun [Hl _]]]; [reflexivity|reflexivity|].
  exists st'. split; [exact Hrun|]. split; [exact Hl|].
  vm_compute in Hrun. injection Hrun as <-. split; reflexivity.
Defined.

(** ** Displayed form *)

Lemma toFixed1_parse (x : Q) :
  exists z : Z,
    parseFloat1 (toFixed1 (Fin x)) = Fin (z # 10)
    /\ (Qabs (inject_Z z / 10 - x) <= 1 # 20)%Q.
Proof.
  unfold toFixed1, parseFloat1.
  set (n := Qfloor (Qabs x * 10 + (1 # 2))).
  assert (Hn0 : 0 <= n).
  { change 0 with (Qfloor 0). apply Qfloor_resp_le.
    pose proof (Qabs_nonneg x). lra. }
  assert (Hlo : (inject_Z n <= Qabs x * 10 + (1 # 2))%Q) by apply Qfloor_le.
  assert (Hhi : (Qabs x * 10 + (1 # 2) < inject_Z n + 1)%Q).
  { pose proof (Qlt_floor (Qabs x * 10 + (1 # 2))) as H. fold n in H.
    rewrite inject_Z_plus in H. exact H. }
  rewrite Z2N.id by exact Hn0.
  destruct (Qlt_bool x 0) eqn:E.
  - apply Qlt_bool_iff in E. exists (- n). split; [reflexivity|].
    rewrite (Qabs_neg x) in Hlo, Hhi by lra.
    rewrite inject_Z_opp. apply Qabs_Qle_condition.
    clearbody n. set (m := inject_Z n) in *. clearbody m.
    unfold Qdiv. change (/ 10)%Q with (1 # 10)%Q. split; lra.
  - assert (Hx : (0 <= x)%Q).
    { apply Qnot_lt_le. intro H. apply Qlt_bool_iff in H. congruence. }
    exists n. split; [reflexivity|].
    rewrite (Qabs_pos x) in Hlo, Hhi by exact Hx.
    apply Qabs_Qle_condition.
    clearbody n. set (m := inject_Z n) in *. clearbody m.
    unfold Qdiv. change (/ 10)%Q with (1 # 10)%Q. split; lra.
Qed.

(** X26. The form shown for a squad member is the upstream form rounded to
    one decimal: it differs from it by at most 0.05, and is the same number
    when the upstream form has one decimal. *)
Theorem displayed_form_is_rounded (playersMap : JsMap.t Player.t)
    (teamFixtures : teamFixturesMap) (pick : Pick.t) (s : Squad.t)
    (player : Player.t) (x : Q) :
  analyzePick playersMap teamFixtures pick = Ok s ->
  JsMap.get (KNum (Pick.element pick)) playersMap = Some player ->
  Player.form player = Fin x ->
  exists z : Z,
    parseFloat1 (Squad.form s) = Fin (z # 10)
    /\ (Qabs (inject_Z z / 10 - x) <= 1 # 20)%Q
    /\ forall t : Z, (x == t # 10)%Q -> z = t.
Proof.
  intros Hs Hget Hform. unfold analyzePick in Hs. rewrite Hget in Hs.
  injection Hs as <-. cbn [Squad.form]. rewrite Hform.
  destruct (toFixed1_parse x) as [z [Hz Hclose]].
  exists z. split; [exact Hz|]. split; [exact Hclose|].
  intros t Ht. rewrite Ht in Hclose.
  apply Qabs_Qle_condition in Hclose. destruct Hclose as [H1 H2].
  rewrite (Qmake_Qdiv t 10) in H1, H2.
  assert (Hd : (inject_Z (z + - t) == inject_Z z - inject_Z t)%Q).
  { rewrite inject_Z_plus, inject_Z_opp. ring. }
  unfold Qdiv in H1, H2. change (/ inject_Z (Z.pos 10))%Q with (1 # 10)%Q in H1, H2.
  change (/ 10)%Q with (1 # 10)%Q in H1, H2.
  assert (Hlt1 : (inject_Z (-1) < inject_Z (z + - t))%Q).
  { rewrite Hd. set (a := inject_Z z) in *. set (b := inject_Z t) in *.
    clearbody a b. unfold inject_Z. lra. }
  assert (Hlt2 : (inject_Z (z + - t) < inject_Z 1)%Q).
  { rewrite Hd. set (a := inject_Z z) in *. set (b := inject_Z t) in *.
    clearbody a b. unfold inject_Z. lra. }
  rewrite <- Zlt_Qlt in Hlt1, Hlt2. lia.
Qed.

Lemma displayed_form_is_rounded_witness :
  exists z : Z,
    parseFloat1 (Squad.form SampleWorld.sakaEntry) = Fin (z # 10)
    /\ (Qabs (inject_Z z / 10 - (10 # 10)) <= 1 # 20)%Q
    /\ forall t : Z, ((10 # 10) == t # 10)%Q -> z = t.
Proof.
  apply (displayed_form_is_rounded SampleWorld.playersMap SampleWorld.teamFixtures
           (SampleWorld.pick 10) SampleWorld.sakaEntry
           (playerOf SampleWorld.bootstrapData SampleWorld.saka) (10 # 10));
    reflexivity.
Defined.

(** ** What the analysis never reports *)

Lemma insight_titles (squad : list Squad.t) (transfers : list Transfer.t)
    (teamData : Entry.t) :
  hasTitle "Strong Fixture Run" (generateInsights squad transfers teamData)
  = (5 <=? easyCount squad)%nat
  /\ hasTitle "Difficult Fixtures Ahead" (generateInsights squad transfers teamData)
     = (negb (5 <=? easyCount squad)%nat && (5 <=? hardCount squad)%nat)%bool.
Proof.
  unfold generateInsights, thresholdInsights.
  fold (easyCount squad) (hardCount squad) (poorFormCount squad).
  destruct (5 <=? easyCount squad)%nat, (5 <=? hardCount squad)%nat,
    (3 <=? poorFormCount squad)%nat,
    (ofZ (Entry.last_deadline_value teamData) / ofZ 10 >=? ofZ 103)%num, transfers;
    cbv zeta; unfold hasTitle; simpl; split; reflexivity.
Qed.

Lemma count_nothing {A} (p : A -> bool) (l : list A) :
  (forall x, In x l -> p x = false) -> count p l = 0%nat.
Proof. intro H. unfold count. now rewrite filter_nothing. Qed.

(** X27. In every analysis the handler produces, each squad member has an
    empty fixture text and the average difficulty 3.0, so neither "Strong
    Fixture Run" nor "Difficult Fixtures Ahead" is ever among the insights,
    and a member is considered for a transfer out only for a form below 3. *)
Theorem analysis_never_reports_fixture_insights (bootstrapData : Bootstrap.t)
    (teamData : Entry.t) (fixturesData : list Fixture.t) (picks : list Pick.t)
    (gw : Z) (a : Analysis.t) :
  analyze bootstrapData teamData fixturesData picks gw = Ok a ->
  Forall (fun s =>
            Squad.fixtures s = "" /\ Squad.avgDifficulty s = Dec false 30
            /\ isWeak s = (parseFloat1 (Squad.form s) <? ofZ 3)%num)
         (Analysis.squad a)
  /\ hasTitle "Strong Fixture Run" (Analysis.insights a) = false
  /\ hasTitle "Difficult Fixtures Ahead" (Analysis.insights a) = false.
Proof.
  intro Ha. unfold analyze in Ha.
  destruct (mapThrow _ picks) as [squad|] eqn:E; [|discriminate].
  injection Ha as <-.
  cbn [Analysis.squad Analysis.insights].
  assert (Hsq : forall s, In s squad ->
                  Squad.fixtures s = "" /\ Squad.avgDifficulty s = Dec false 30).
  { intros s Hs. apply mapThrow_Forall2 in E.
    assert (Hex : exists pick, In pick picks
                    /\ analyzePick (buildPlayersMap bootstrapData)
                         (getNextFixtures fixturesData gw (buildTeamsMap bootstrapData))
                         pick = Ok s).
    { clear -E Hs. induction E as [|pick s' l l' H _ IH]; [destruct Hs|].
      destruct Hs as [->|Hs].
      - exists pick. split; [now left|exact H].
      - destruct (IH Hs) as [p [Hp Hp']]. exists p. split; [now right|exact Hp']. }
    destruct Hex as [pick [_ Hp]]. exact (analyzePick_window_empty _ _ _ _ _ _ Hp). }
  assert (Heasy : easyCount squad = 0%nat).
  { apply count_nothing. intros s Hs. destruct (Hsq s Hs) as [_ ->]. reflexivity. }
  assert (Hhard : hardCount squad = 0%nat).
  { apply count_nothing. intros s Hs. destruct (Hsq s Hs) as [_ ->]. reflexivity. }
  split; [|split].
  - apply Forall_forall. intros s Hs. destruct (Hsq s Hs) as [Hf Hd].
    repeat split; auto. unfold isWeak. rewrite Hd.
    change (parseFloat1 (Dec false 30) >? tenths 35)%num with false.
    apply orb_false_r.
  - rewrite (proj1 (insight_titles _ _ _)), Heasy. reflexivity.
  - rewrite (proj2 (insight_titles _ _ _)), Heasy, Hhard. reflexivity.
Qed.

Lemma analysis_never_reports_fixture_insights_witness :
  exists a,
    analyze SampleWorld.bootstrapData SampleWorld.teamData Sample.nineFixtures
            SampleWorld.picks 1 = Ok a
    /\ hasTitle "Strong Fixture Run" (Analysis.insights a) = false.
Proof.
  destruct (analyze SampleWorld.bootstrapData SampleWorld.teamData
              Sample.nineFixtures SampleWorld.picks 1) as [a|m] eqn:E.
  - exists a. split; [reflexivity|].
    exact (proj1 (proj2 (analysis_never_reports_fixture_insights _ _ _ _ _ _ E))).
  - vm_compute in E. discriminate E.
Defined.
